(** * The Large_Data user-guide notebook: helper functions and cell structure

    The notebook [examples/user_guide/15-Large_Data.ipynb] defines three
    numeric helpers in its first code cell ([random_walk], [random_cov],
    [time_series]) and a fourth ([rand_gauss2d]) later on, and then builds
    its example datasets from them.  This development embeds

    - the helpers, over a small model of the numpy calls they make;
    - the code cells themselves, as abstract syntax, for the statements
      that are about what the notebook contains.

    Floating point is idealised: an array element is a real number or the
    non-finite value [NaN]; rounding, overflow and underflow are not
    modelled, and neither is Python's [OverflowError].  A statement about
    the values computed, where the code would leave the range of a double,
    carries the bounds that keep it inside as hypotheses.  Python integers
    are [Z]. *)

From Stdlib Require Import String Ascii Bool ZArith Reals Lra Lia List.
Import ListNotations.

Set Warnings "-register-all".

Local Open Scope Z_scope.

(* ================================================================= *)
(** ** Python exceptions and the state-and-error monad *)

Inductive exn : Type :=
| ValueError
| ZeroDivisionError.

Inductive result (A : Type) : Type :=
| Ok (a : A)
| Raise (e : exn).
Arguments Ok {A} a.
Arguments Raise {A} e.

(** A computation that reads and advances the global random generator
    ([np.random]'s hidden state) and may raise. *)
Definition M (rng A : Type) : Type := rng -> result (A * rng).

Definition ret {rng A} (a : A) : M rng A := fun st => Ok (a, st).

Definition bind {rng A B} (m : M rng A) (k : A -> M rng B) : M rng B :=
  fun st =>
    match m st with
    | Ok (a, st') => k a st'
    | Raise e => Raise e
    end.

(** A pure numpy call that may raise but does not touch the generator. *)
Definition lift {rng A} (r : result A) : M rng A :=
  fun st =>
    match r with
    | Ok a => Ok (a, st)
    | Raise e => Raise e
    end.

Declare Scope py_scope.
Delimit Scope py_scope with py.
Notation "x <- m ;; k" := (bind m (fun x => k))
  (at level 61, m at next level, right associativity) : py_scope.
Local Open Scope py_scope.

(* ================================================================= *)
(** ** Floats *)

Inductive pyfloat : Type :=
| Fin (r : R)
| NaN.

Definition of_int (z : Z) : pyfloat := Fin (IZR z).

Definition fadd (x y : pyfloat) : pyfloat :=
  match x, y with
  | Fin a, Fin b => Fin (a + b)
  | _, _ => NaN
  end.

Definition fmul (x y : pyfloat) : pyfloat :=
  match x, y with
  | Fin a, Fin b => Fin (a * b)
  | _, _ => NaN
  end.

(** Array division: a zero divisor gives a non-finite value, not an
    exception. *)
Definition fdiv (x y : pyfloat) : pyfloat :=
  match x, y with
  | Fin a, Fin b => if Req_dec_T b 0 then NaN else Fin (a / b)
  | _, _ => NaN
  end.

(** [np.sqrt] of a negative number is [nan] (with a warning). *)
Definition fsqrt (x : pyfloat) : pyfloat :=
  match x with
  | Fin a => if Rlt_dec a 0 then NaN else Fin (sqrt a)
  | NaN => NaN
  end.

Definition fexp (x : pyfloat) : pyfloat :=
  match x with
  | Fin a => Fin (exp a)
  | NaN => NaN
  end.

Definition fsin (x : pyfloat) : pyfloat :=
  match x with
  | Fin a => Fin (sin a)
  | NaN => NaN
  end.

Definition fcos (x : pyfloat) : pyfloat :=
  match x with
  | Fin a => Fin (cos a)
  | NaN => NaN
  end.

(** [x > 0] on floats; every comparison with [nan] is false. *)
Definition fpositive (x : pyfloat) : Prop :=
  match x with
  | Fin a => (0 < a)%R
  | NaN => False
  end.

(** [x >= 0] on floats. *)
Definition fnonneg (x : pyfloat) : Prop :=
  match x with
  | Fin a => (0 <= a)%R
  | NaN => False
  end.

(* ================================================================= *)
(** ** numpy arrays *)

Definition ndarray : Type := list pyfloat.
Definition ndarray2 : Type := list (list pyfloat).

Definition len {A} (l : list A) : Z := Z.of_nat (length l).

(** [range(k)]: empty when [k <= 0]. *)
Definition py_range (k : Z) : list Z :=
  map Z.of_nat (seq 0 (Z.to_nat k)).

(** [np.array(range(k))] *)
Definition np_array (l : list Z) : ndarray := map of_int l.

(** [np.ones(f)]: a negative dimension raises. *)
Definition np_ones (f : Z) : result ndarray :=
  if f <? 0 then Raise ValueError
  else Ok (repeat (Fin 1) (Z.to_nat f)).

(** [np.zeros(n)] *)
Definition np_zeros (n : Z) : result ndarray :=
  if n <? 0 then Raise ValueError
  else Ok (repeat (Fin 0) (Z.to_nat n)).

(** [arr / f], [c * arr], [arr * c] with a scalar. *)
Definition div_scalar (arr : ndarray) (f : pyfloat) : ndarray :=
  map (fun x => fdiv x f) arr.

Definition scalar_mul (c : pyfloat) (arr : ndarray) : ndarray :=
  map (fmul c) arr.

Definition mul_scalar (arr : ndarray) (c : pyfloat) : ndarray :=
  map (fun x => fmul x c) arr.

Definition np_sin (arr : ndarray) : ndarray := map fsin arr.
Definition np_exp (arr : ndarray) : ndarray := map fexp arr.

Definition fsum (l : list pyfloat) : pyfloat := fold_left fadd l (Fin 0).

(** One output sample of the full discrete convolution:
    [(a * v)[k] = sum_m a[m] * v[k - m]], over the [m] for which both
    indices are in range. *)
Definition conv_at (a v : ndarray) (k : nat) : pyfloat :=
  fsum
    (map (fun m => fmul (nth m a (Fin 0)) (nth (k - m) v (Fin 0)))
       (filter (fun m => (k - m <? length v)%nat)
          (seq 0 (Nat.min (S k) (length a))))).

(** [np.convolve(a, v)] in its default mode ['full']: either argument
    empty raises; numpy swaps the arguments so that the longer is first. *)
Definition np_convolve (a v : ndarray) : result ndarray :=
  match a, v with
  | [], _ => Raise ValueError
  | _, [] => Raise ValueError
  | _, _ =>
      let '(a, v) := if (length a <? length v)%nat then (v, a) else (a, v) in
      Ok (map (conv_at a v) (seq 0 (length a + length v - 1)))
  end.

Fixpoint cumsum_from (acc : pyfloat) (arr : ndarray) : ndarray :=
  match arr with
  | [] => []
  | x :: rest => let s := fadd acc x in s :: cumsum_from s rest
  end.

(** [arr.cumsum()] / [np.cumsum(arr)] *)
Definition np_cumsum (arr : ndarray) : ndarray := cumsum_from (Fin 0) arr.

Fixpoint zip_with {A B C} (f : A -> B -> C) (l1 : list A) (l2 : list B)
  : list C :=
  match l1, l2 with
  | x :: l1', y :: l2' => f x y :: zip_with f l1' l2'
  | _, _ => []
  end.

(** [xs += ys]: the right-hand side must broadcast to the shape of [xs]. *)
Definition iadd (xs ys : ndarray) : result ndarray :=
  if (length ys =? length xs)%nat then Ok (zip_with fadd xs ys)
  else match ys with
       | [y] => Ok (map (fun x => fadd x y) xs)
       | _ => Raise ValueError
       end.

(** [xs + ys] on one-dimensional arrays, with broadcasting of a
    one-element operand. *)
Definition np_add (xs ys : ndarray) : result ndarray :=
  if (length ys =? length xs)%nat then Ok (zip_with fadd xs ys)
  else match xs, ys with
       | _, [y] => Ok (map (fun x => fadd x y) xs)
       | [x], _ => Ok (map (fun y => fadd x y) ys)
       | _, _ => Raise ValueError
       end.

(** [np.column_stack(cols)]: one-dimensional arrays become the columns of
    a two-dimensional one; their lengths must agree. *)
Definition np_column_stack (cols : list ndarray) : result ndarray2 :=
  match cols with
  | [] => Raise ValueError
  | c :: cs =>
      if forallb (fun c' => (length c' =? length c)%nat) cs
      then Ok (map (fun i => map (fun col => nth i col NaN) cols)
                 (seq 0 (length c)))
      else Raise ValueError
  end.

(** The [shape] of a two-dimensional array whose rows all have [w]
    entries. *)
Definition has_shape (a : ndarray2) (h w : Z) : Prop :=
  len a = h /\ Forall (fun row => len row = w) a.

(** [np.linspace(start, stop, num)] with the end point included. *)
Definition np_linspace (start stop : R) (num : Z) : result ndarray :=
  if num <? 0 then Raise ValueError
  else
    let step := ((stop - start) / IZR (num - 1))%R in
    Ok (map (fun i => Fin (if 1 <? num then start + IZR i * step
                           else start)%R)
          (py_range num)).

(** [A.T] *)
Definition transpose (a : ndarray2) : ndarray2 :=
  map (fun j => map (fun row => nth j row NaN) a)
    (seq 0 (length (hd [] a))).

(** [np.dot(a, b)] on two-dimensional arrays: the rows of [a] against the
    columns of [b]; the inner dimensions must agree. *)
Definition np_dot (a b : ndarray2) : result ndarray2 :=
  if forallb (fun row => (length row =? length b)%nat) a
  then Ok (map (fun row => map (fun col => fsum (zip_with fmul row col))
                             (transpose b)) a)
  else Raise ValueError.

(** [arr.reshape(-1, w)] of a flat buffer, row by row. *)
Fixpoint rows_of (h w : nat) (flat : list pyfloat) : ndarray2 :=
  match h with
  | O => []
  | S h' => firstn w flat :: rows_of h' w (skipn w flat)
  end.

(** Is [c] a [d] x [d] array? *)
Definition is_square (c : ndarray2) (d : nat) : bool :=
  (length c =? d)%nat && forallb (fun row => (length row =? d)%nat) c.

(** Elementwise operations on two-dimensional arrays of one shape. *)
Definition map2d (g : pyfloat -> pyfloat) (a : ndarray2) : ndarray2 :=
  map (map g) a.

Definition zip2d (g : pyfloat -> pyfloat -> pyfloat) (a b : ndarray2)
  : ndarray2 :=
  zip_with (zip_with g) a b.

(** [x ** k] *)
Definition fpow (x : pyfloat) (k : nat) : pyfloat :=
  match x with
  | Fin a => Fin (a ^ k)
  | NaN => NaN
  end.

(** [np.meshgrid(x, y)]: the grid of abscissas and the grid of
    ordinates, each of shape [(len y, len x)]. *)
Definition np_meshgrid (x y : ndarray) : ndarray2 * ndarray2 :=
  (map (fun _ => x) y, map (fun yi => map (fun _ => yi) x) y).

(** Days since 1970-01-01 of a date of the Gregorian calendar. *)
Definition days_from_civil (y m d : Z) : Z :=
  let y' := if m <=? 2 then y - 1 else y in
  let era := y' / 400 in
  let yoe := y' - era * 400 in
  let mp := (m + 9) mod 12 in
  let doy := (153 * mp + 2) / 5 + d - 1 in
  let doe := yoe * 365 + yoe / 4 - yoe / 100 + doy in
  era * 146097 + doe - 719468.

(** [pd.date_range(start=..., end=..., freq='1D')]: every day from
    [start] to [end], both included, as day numbers. *)
Definition pd_date_range_daily (first last : Z * Z * Z) : list Z :=
  let '(y1, m1, d1) := first in
  let '(y2, m2, d2) := last in
  let s := days_from_civil y1 m1 d1 in
  let e := days_from_civil y2 m2 d2 in
  map (fun k => s + k) (py_range (e - s + 1)).

(** [x.T @ m @ x], the quadratic form of a square matrix at a vector. *)
Definition quad_form (m : ndarray2) (x : ndarray) : pyfloat :=
  fsum (zip_with fmul x (map (fun row => fsum (zip_with fmul row x)) m)).

Definition is_finite (x : pyfloat) : Prop :=
  match x with
  | Fin _ => True
  | NaN => False
  end.

(** A colour value: a float between 0 and 1. *)
Definition unit_interval (x : pyfloat) : Prop :=
  match x with
  | Fin v => (0 <= v <= 1)%R
  | NaN => False
  end.

(** A float of magnitude at most [m]. *)
Definition magnitude_at_most (m : R) (x : pyfloat) : Prop :=
  match x with
  | Fin v => (Rabs v <= m)%R
  | NaN => False
  end.


(* ================================================================= *)
(** ** The global random generator *)

(** What [np.random] needs from its bit generator: re-seeding, one
    standard-normal draw, one uniform draw on [0, 1), each a function of
    the generator state.  [cov_factor] stands for the factor
    [sqrt(s)[:, None] * v] that [multivariate_normal] obtains from the
    singular value decomposition of the covariance. *)
Class Generator (rng : Type) : Type := {
  seed_state : Z -> rng;
  next_gauss : rng -> R * rng;
  next_double : rng -> R * rng;
  cov_factor : ndarray2 -> ndarray2;
  cov_factor_square :
    forall c d, is_square c d = true -> is_square (cov_factor c) d = true
}.

Section Random.
Context {rng : Type} `{G : Generator rng}.

(** [np.random.seed(k)] *)
Definition np_random_seed (k : Z) : M rng unit :=
  fun _ => Ok (tt, seed_state k).

Fixpoint gauss_draws (k : nat) (st : rng) : list R * rng :=
  match k with
  | O => ([], st)
  | S k' =>
      let (x, st1) := next_gauss st in
      let (xs, st2) := gauss_draws k' st1 in
      (x :: xs, st2)
  end.

(** [np.random.normal(loc, scale, size=size)] *)
Definition np_random_normal (loc scale : R) (size : Z) : M rng ndarray :=
  fun st =>
    if size <? 0 then Raise ValueError
    else
      let (zs, st') := gauss_draws (Z.to_nat size) st in
      Ok (map (fun z => Fin (loc + scale * z)) zs, st').

(** [np.random.standard_normal(size=size)] *)
Definition np_random_standard_normal (size : Z) : M rng ndarray :=
  fun st =>
    if size <? 0 then Raise ValueError
    else
      let (zs, st') := gauss_draws (Z.to_nat size) st in
      Ok (map Fin zs, st').

(** [np.random.randn(d0)] *)
Definition np_random_randn1 (d0 : Z) : M rng ndarray :=
  np_random_standard_normal d0.

(** [np.random.randn(d0, d1)] *)
Definition np_random_randn (d0 d1 : Z) : M rng ndarray2 :=
  fun st =>
    if (d0 <? 0) || (d1 <? 0) then Raise ValueError
    else
      let (zs, st') := gauss_draws (Z.to_nat d0 * Z.to_nat d1) st in
      Ok (rows_of (Z.to_nat d0) (Z.to_nat d1) (map Fin zs), st').

(** [np.random.rand()] *)
Definition np_random_rand : M rng R :=
  fun st => let (u, st') := next_double st in Ok (u, st').

(** [np.random.multivariate_normal(mean, cov, (size,))]: standard
    normals, [size] rows of them, times the factor of the covariance,
    plus the mean. *)
Definition np_random_multivariate_normal (mean : ndarray) (cov : ndarray2)
  (size : Z) : M rng ndarray2 :=
  fun st =>
    let d := length mean in
    if negb (is_square cov d) || (size <? 0) then Raise ValueError
    else
      let (zs, st') := gauss_draws (Z.to_nat size * d) st in
      match np_dot (rows_of (Z.to_nat size) d (map Fin zs))
              (cov_factor cov) with
      | Ok x => Ok (map (fun row => zip_with fadd row mean) x, st')
      | Raise e => Raise e
      end.

(** A list comprehension whose element draws from the generator. *)
Fixpoint for_each {A B} (body : A -> M rng B) (l : list A)
  : M rng (list B) :=
  match l with
  | [] => ret []
  | a :: rest =>
      b <- body a ;;
      bs <- for_each body rest ;;
      ret (b :: bs)
  end.

(* --------------------------------------------------------------- *)
(** ** The helpers of the first code cell *)

(** [[
def random_walk(n, f=5000):
  xs = np.convolve(np.random.normal(0, 0.1, size=n), np.ones(f)/f).cumsum()
  ys = np.convolve(np.random.normal(0, 0.1, size=n), np.ones(f)/f).cumsum()
  xs += 0.1*np.sin(0.1*np.array(range(n-1+f))) # add wobble on x axis
  xs += np.random.normal(0, 0.005, size=n-1+f) # add measurement noise
  ys += np.random.normal(0, 0.005, size=n-1+f)
  return np.column_stack([xs, ys])
]] *)
Definition random_walk (n f : Z) : M rng ndarray2 :=
  a1 <- np_random_normal 0 0.1 n ;;
  o1 <- lift (np_ones f) ;;
  c1 <- lift (np_convolve a1 (div_scalar o1 (of_int f))) ;;
  let xs := np_cumsum c1 in
  a2 <- np_random_normal 0 0.1 n ;;
  o2 <- lift (np_ones f) ;;
  c2 <- lift (np_convolve a2 (div_scalar o2 (of_int f))) ;;
  let ys := np_cumsum c2 in
  xs <- lift (iadd xs
                (scalar_mul (Fin 0.1)
                   (np_sin (scalar_mul (Fin 0.1)
                              (np_array (py_range (n - 1 + f))))))) ;;
  e1 <- np_random_normal 0 0.005 (n - 1 + f) ;;
  xs <- lift (iadd xs e1) ;;
  e2 <- np_random_normal 0 0.005 (n - 1 + f) ;;
  ys <- lift (iadd ys e2) ;;
  lift (np_column_stack [xs; ys]).

(** The default [f=5000]. *)
Definition random_walk_default (n : Z) : M rng ndarray2 :=
  random_walk n 5000.

(** [[
def random_cov():
  A = np.random.randn(2,2)
  return np.dot(A, A.T)
]] *)
Definition random_cov : M rng ndarray2 :=
  A <- np_random_randn 2 2 ;;
  lift (np_dot A (transpose A)).

(** [float(T)/N] with [N] a Python integer. *)
Definition py_truediv (x : R) (n : Z) : result pyfloat :=
  if n =? 0 then Raise ZeroDivisionError else Ok (Fin (x / IZR n)).

(** [[
def time_series(T = 1, N = 100, mu = 0.1, sigma = 0.1, S0 = 20):
  dt = float(T)/N
  t = np.linspace(0, T, N)
  W = np.random.standard_normal(size = N)
  W = np.cumsum(W)*np.sqrt(dt) # standard brownian motion
  X = (mu-0.5*sigma**2)*t + sigma*W
  S = S0*np.exp(X) # geometric brownian motion
  return S
]] *)
Definition time_series (T : R) (N : Z) (mu sigma S0 : R) : M rng ndarray :=
  dt <- lift (py_truediv T N) ;;
  t <- lift (np_linspace 0 T N) ;;
  W <- np_random_standard_normal N ;;
  let W := mul_scalar (np_cumsum W) (fsqrt dt) in
  X <- lift (np_add (scalar_mul (Fin (mu - 0.5 * sigma ^ 2)) t)
                    (scalar_mul (Fin sigma) W)) ;;
  let S := scalar_mul (Fin S0) (np_exp X) in
  ret S.

(* --------------------------------------------------------------- *)
(** ** The datasets the cells construct *)

(** [np.random.multivariate_normal((0,0), [[0.1, 0.1], [0.1, 1.0]], (k,))] *)
Definition points_sample (k : Z) : M rng ndarray2 :=
  np_random_multivariate_normal [Fin 0; Fin 0]
    [[Fin 0.1; Fin 0.1]; [Fin 0.1; Fin 1.0]] k.

(** [[
np.random.seed(1)
points = hv.Points(np.random.multivariate_normal(..., (1000,)),label="Points")
paths = hv.Path([random_walk(2000,30)], label="Paths")
]] *)
Definition cell_4_data : M rng (ndarray2 * list ndarray2) :=
  _ <- np_random_seed 1 ;;
  points <- points_sample 1000 ;;
  walk <- random_walk 2000 30 ;;
  ret (points, [walk]).

(** [[
np.random.seed(1)
points = hv.Points(np.random.multivariate_normal(..., (1000000,)),label="Points")
paths = hv.Path([0.15*random_walk(100000) for i in range(10)],label="Paths")
]] *)
Definition cell_6_data : M rng (ndarray2 * list ndarray2) :=
  _ <- np_random_seed 1 ;;
  points <- points_sample 1000000 ;;
  paths <- for_each
             (fun _ => walk <- random_walk_default 100000 ;;
                       ret (map2d (fmul (Fin 0.15)) walk))
             (py_range 10) ;;
  ret (points, paths).

(** [[
def rand_gauss2d():
  return 100*np.random.multivariate_normal(np.random.randn(2), random_cov(), (100000,))
]] *)
Definition rand_gauss2d : M rng ndarray2 :=
  mean <- np_random_randn1 2 ;;
  cov <- random_cov ;;
  x <- np_random_multivariate_normal mean cov 100000 ;;
  ret (map2d (fmul (Fin 100)) x).

(** [[
np.random.seed(3)
num_ks=8
gaussians = {i: hv.Points(rand_gauss2d(), kdims) for i in range(num_ks)}
lines = {i: hv.Curve(time_series(N=10000, S0=200+np.random.rand())) for i in range(num_ks)}
]] *)
Definition cell_17_data : M rng (list ndarray2 * list ndarray) :=
  _ <- np_random_seed 3 ;;
  let num_ks := 8 in
  gaussians <- for_each (fun _ => rand_gauss2d) (py_range num_ks) ;;
  lines <- for_each
             (fun _ => u <- np_random_rand ;;
                       time_series 1 10000 0.1 0.1 (200 + u))
             (py_range num_ks) ;;
  ret (gaussians, lines).

(** [[
dates = pd.date_range(start="2014-01-01", end="2016-01-01", freq='1D')
curve = hv.Curve((dates, time_series(N=len(dates), sigma = 1)))
]] *)
Definition cell_23_data : M rng (list Z * ndarray) :=
  let dates := pd_date_range_daily (2014, 1, 1) (2016, 1, 1) in
  series <- time_series 1 (len dates) 0.1 1 20 ;;
  ret (dates, series).

(** [0.5*np.sin(a*xs**2+b*ys**2)+0.5] *)
Definition channel (a b : R) (xs ys : ndarray2) : ndarray2 :=
  map2d (fun s => fadd s (Fin 0.5))
    (map2d (fmul (Fin 0.5))
       (map2d fsin
          (zip2d fadd
             (map2d (fmul (Fin a)) (map2d (fun x => fpow x 2) xs))
             (map2d (fmul (Fin b)) (map2d (fun y => fpow y 2) ys))))).

(** The arrays of the cell that shows one plot per element type. *)
Record element_data : Type := {
  pts : list (pyfloat * pyfloat);
  grid_x : ndarray;
  grid_z : ndarray2;
  red : ndarray2;
  green : ndarray2;
  blue : ndarray2;
  tri_vertices : ndarray2;
  graph_edges : ndarray * ndarray
}.

(** [[
np.random.seed(12)
N=100
pts = [(10*i/N, np.sin(10*i/N)) for i in range(N)]
x = y = np.linspace(0, 5, int(np.sqrt(N)))
xs,ys = np.meshgrid(x,y)
z = np.sin(xs)*np.cos(ys)
r = 0.5*np.sin(0.1*xs**2+0.05*ys**2)+0.5
g = 0.5*np.sin(0.02*xs**2+0.2*ys**2)+0.5
b = 0.5*np.sin(0.02*xs**2+0.02*ys**2)+0.5
tri = hv.TriMesh.from_vertices(hv.Points(np.random.randn(N,3), vdims='z'))
... hv.Graph(((np.zeros(N), np.arange(N)),)) ...
]] *)
Definition cell_30_data : M rng element_data :=
  _ <- np_random_seed 12 ;;
  let N := 100 in
  pts <- for_each
           (fun i => a <- lift (py_truediv (IZR (10 * i)) N) ;;
                     a' <- lift (py_truediv (IZR (10 * i)) N) ;;
                     ret (a, fsin a'))
           (py_range N) ;;
  x <- lift (np_linspace 0 5 (Z.sqrt N)) ;;
  let y := x in
  let '(xs, ys) := np_meshgrid x y in
  let z := zip2d fmul (map2d fsin xs) (map2d fcos ys) in
  let r := channel 0.1 0.05 xs ys in
  let g := channel 0.02 0.2 xs ys in
  let b := channel 0.02 0.02 xs ys in
  vertices <- np_random_randn N 3 ;;
  zeros <- lift (np_zeros N) ;;
  ret {| pts := pts; grid_x := x; grid_z := z;
         red := r; green := g; blue := b;
         tri_vertices := vertices;
         graph_edges := (zeros, np_array (py_range N)) |}.

(** [[
curves = {'+':hv.Curve(pts), '-':hv.Curve([(x, -1.0*y) for x, y in pts])}
]] *)
Definition cell_34_data (pts : list (pyfloat * pyfloat))
  : list (pyfloat * pyfloat) * list (pyfloat * pyfloat) :=
  (pts, map (fun '(x, y) => (x, fmul (Fin (- 1.0)) y)) pts).

(** Every dataset of the notebook, in the order the cells build them. *)
Record datasets : Type := {
  points_small : ndarray2;
  paths_small : list ndarray2;
  points : ndarray2;
  paths : list ndarray2;
  gaussians : list ndarray2;
  lines : list ndarray;
  dates : list Z;
  curve : ndarray;
  elements : element_data;
  curves : list (pyfloat * pyfloat) * list (pyfloat * pyfloat)
}.

(** The cells that build data, run top to bottom from the generator
    state the kernel happens to be in.  The cells in between only call
    HoloViews and Datashader operations on what is already built. *)
Definition notebook_datasets : M rng datasets :=
  d4 <- cell_4_data ;;
  d6 <- cell_6_data ;;
  d17 <- cell_17_data ;;
  d23 <- cell_23_data ;;
  d30 <- cell_30_data ;;
  ret {| points_small := fst d4; paths_small := snd d4;
         points := fst d6; paths := snd d6;
         gaussians := fst d17; lines := snd d17;
         dates := fst d23; curve := snd d23;
         elements := d30;
         curves := cell_34_data (pts d30) |}.

End Random.

(** A generator for running the helpers on concrete inputs: the state is
    a counter, the [k]-th normal draw is [k] and the [k]-th uniform draw
    is [1/(k+2)]. *)
#[export] Instance counter_generator : Generator nat := {
  seed_state := fun k => Z.to_nat k;
  next_gauss := fun s => (INR s, S s);
  next_double := fun s => ((/ INR (s + 2))%R, S s);
  cov_factor := fun c => c;
  cov_factor_square := fun c d H => H
}.

(* ================================================================= *)
(** * The notebook as abstract syntax *)

Module Py.

Inductive binop : Type := Add | Sub | Mult | Div | Pow.

(** Expressions: the part of Python's expression grammar that the code
    cells use, and the conditional expression, which they do not. *)
Inductive expr : Type :=
| EName (x : string)
| ENum (literal : string)
| EStr (s : string)
| EBool (b : bool)
| EAttr (e : expr) (attr : string)
| ECall (f : expr) (args : list expr) (kwargs : list (string * expr))
| EBinOp (l : expr) (op : binop) (r : expr)
| ENeg (e : expr)
| EList (es : list expr)
| ETuple (es : list expr)
| EDict (items : list (expr * expr))
| ESlice (e lo hi : expr)
| EListComp (elt : expr) (targets : list string) (iter : expr)
| EDictComp (key val : expr) (targets : list string) (iter : expr)
| EIfExp (test body orelse : expr).

(** Statements: those the cells use, followed by the branching and
    exception constructs of the language, which they could use. *)
Inductive stmt : Type :=
| SImport (module : list string) (asname : string)
| SImportFrom (module : list string) (names : list string)
| SAssign (targets : list expr) (value : expr)
| SAugAssign (target : expr) (op : binop) (value : expr)
| SExpr (e : expr)
| SDef (name : string) (params : list (string * option expr))
       (doc : option string) (body : list stmt)
| SReturn (e : expr)
| SComment (text : string)
| SIf (test : expr) (body orelse : list stmt)
| SFor (targets : list string) (iter : expr) (body : list stmt)
| SWhile (test : expr) (body : list stmt)
| STry (body : list stmt) (handlers : list (list stmt))
       (finalbody : list stmt)
| SRaise (e : expr)
| SAssert (test : expr)
| SWith (context : expr) (body : list stmt).

Inductive cell : Type :=
| Markdown (opening : string)
| Code (source : list stmt).

End Py.

(** ** The cells *)

Module Notebook.
Import Py.
Local Open Scope string_scope.

(** Shorthand for writing the cells down. *)
Definition v (x : string) : expr := EName x.
Definition num (literal : string) : expr := ENum literal.
(** [root.a1.a2...] *)
Definition dot (root : string) (attrs : list string) : expr :=
  fold_left EAttr attrs (EName root).
Definition call (f : expr) (args : list expr) : expr := ECall f args [].
Definition callk (f : expr) (args : list expr)
  (kwargs : list (string * expr)) : expr := ECall f args kwargs.
(** [obj.m(args)] *)
Definition method (obj : expr) (m : string) (args : list expr) : expr :=
  ECall (EAttr obj m) args [].
Definition assign (x : string) (e : expr) : stmt := SAssign [EName x] e.

(** The first code cell: imports, parameter settings and the three
    helper functions. *)
Definition cell_1 : list stmt :=
  [ SImport ["numpy"] "np";
    SImport ["holoviews"] "hv";
    SImportFrom ["holoviews"] ["opts"];
    SImport ["datashader"] "ds";
    SImportFrom ["holoviews"; "operation"; "datashader"]
      ["datashade"; "shade"; "dynspread"; "rasterize"];
    SImportFrom ["holoviews"; "operation"] ["decimate"];
    SExpr (call (dot "hv" ["extension"]) [EStr "bokeh"; EStr "matplotlib"]);
    SAssign [dot "decimate" ["max_samples"]] (num "1000");
    SAssign [dot "dynspread" ["max_px"]] (num "20");
    SAssign [dot "dynspread" ["threshold"]] (num "0.5");
    SDef "random_walk" [("n", None); ("f", Some (num "5000"))]
      (Some "Random walk in a 2D space, smoothed with a filter of length f")
      [ assign "xs"
          (method
             (call (dot "np" ["convolve"])
                [ callk (dot "np" ["random"; "normal"])
                    [num "0"; num "0.1"] [("size", v "n")];
                  EBinOp (call (dot "np" ["ones"]) [v "f"]) Div (v "f") ])
             "cumsum" []);
        assign "ys"
          (method
             (call (dot "np" ["convolve"])
                [ callk (dot "np" ["random"; "normal"])
                    [num "0"; num "0.1"] [("size", v "n")];
                  EBinOp (call (dot "np" ["ones"]) [v "f"]) Div (v "f") ])
             "cumsum" []);
        SAugAssign (v "xs") Add
          (EBinOp (num "0.1") Mult
             (call (dot "np" ["sin"])
                [ EBinOp (num "0.1") Mult
                    (call (dot "np" ["array"])
                       [ call (v "range")
                           [ EBinOp (EBinOp (v "n") Sub (num "1"))
                               Add (v "f") ] ]) ]));
        SComment "# add wobble on x axis";
        SAugAssign (v "xs") Add
          (callk (dot "np" ["random"; "normal"]) [num "0"; num "0.005"]
             [("size", EBinOp (EBinOp (v "n") Sub (num "1")) Add (v "f"))]);
        SComment "# add measurement noise";
        SAugAssign (v "ys") Add
          (callk (dot "np" ["random"; "normal"]) [num "0"; num "0.005"]
             [("size", EBinOp (EBinOp (v "n") Sub (num "1")) Add (v "f"))]);
        SReturn (call (dot "np" ["column_stack"])
                   [EList [v "xs"; v "ys"]]) ];
    SDef "random_cov" []
      (Some "Random covariance for use in generating 2D Gaussian distributions")
      [ assign "A" (call (dot "np" ["random"; "randn"]) [num "2"; num "2"]);
        SReturn (call (dot "np" ["dot"]) [v "A"; dot "A" ["T"]]) ];
    SDef "time_series"
      [ ("T", Some (num "1")); ("N", Some (num "100"));
        ("mu", Some (num "0.1")); ("sigma", Some (num "0.1"));
        ("S0", Some (num "20")) ]
      (Some "Parameterized noisy time series")
      [ assign "dt" (EBinOp (call (v "float") [v "T"]) Div (v "N"));
        assign "t" (call (dot "np" ["linspace"]) [num "0"; v "T"; v "N"]);
        assign "W" (callk (dot "np" ["random"; "standard_normal"]) []
                      [("size", v "N")]);
        assign "W" (EBinOp (call (dot "np" ["cumsum"]) [v "W"]) Mult
                      (call (dot "np" ["sqrt"]) [v "dt"]));
        SComment "# standard brownian motion";
        assign "X"
          (EBinOp
             (EBinOp
                (EBinOp (v "mu") Sub
                   (EBinOp (num "0.5") Mult
                      (EBinOp (v "sigma") Pow (num "2"))))
                Mult (v "t"))
             Add (EBinOp (v "sigma") Mult (v "W")));
        assign "S" (EBinOp (v "S0") Mult
                      (call (dot "np" ["exp"]) [v "X"]));
        SComment "# geometric brownian motion";
        SReturn (v "S") ] ].

(** [np.random.multivariate_normal((0,0), [[0.1, 0.1], [0.1, 1.0]], (k,))] *)
Definition points_sample (k : string) : expr :=
  call (dot "np" ["random"; "multivariate_normal"])
    [ ETuple [num "0"; num "0"];
      EList [EList [num "0.1"; num "0.1"]; EList [num "0.1"; num "1.0"]];
      ETuple [num k] ].

Definition cell_4 : list stmt :=
  [ SExpr (call (dot "np" ["random"; "seed"]) [num "1"]);
    assign "points"
      (callk (dot "hv" ["Points"]) [points_sample "1000"]
         [("label", EStr "Points")]);
    assign "paths"
      (callk (dot "hv" ["Path"])
         [EList [call (v "random_walk") [num "2000"; num "30"]]]
         [("label", EStr "Paths")]);
    SExpr (EBinOp (v "points") Add (v "paths")) ].

Definition cell_6 : list stmt :=
  [ SExpr (call (dot "np" ["random"; "seed"]) [num "1"]);
    assign "points"
      (callk (dot "hv" ["Points"]) [points_sample "1000000"]
         [("label", EStr "Points")]);
    assign "paths"
      (callk (dot "hv" ["Path"])
         [ EListComp
             (EBinOp (num "0.15") Mult
                (call (v "random_walk") [num "100000"]))
             ["i"] (call (v "range") [num "10"]) ]
         [("label", EStr "Paths")]);
    SComment
      "#points + paths  ## Danger! Browsers can't handle 1 million points!" ].

Definition cell_8 : list stmt :=
  [ SExpr (EBinOp
             (EBinOp (call (v "decimate") [v "points"]) Add
                (call (v "datashade") [v "points"]))
             Add (call (v "datashade") [v "paths"])) ].

Definition cell_10 : list stmt :=
  [ SExpr (EBinOp
             (EBinOp
                (method (call (v "rasterize") [v "points"]) "hist" [])
                Add
                (call (v "shade") [call (v "rasterize") [v "points"]]))
             Add (call (v "datashade") [v "points"])) ].

Definition cell_13 : list stmt :=
  [ SExpr (EBinOp (call (v "datashade") [v "points"]) Add
             (call (v "dynspread") [call (v "datashade") [v "points"]])) ].

Definition cell_15 : list stmt :=
  [ SExpr (EBinOp (call (v "datashade") [v "paths"]) Add
             (call (v "dynspread") [call (v "datashade") [v "paths"]])) ].

(** [dynspread(datashade(hv.NdOverlay(data, kdims=k), aggregator=ds.count_cat('k')))] *)
Definition category_spread (data : string) (k : expr) : expr :=
  call (v "dynspread")
    [ callk (v "datashade")
        [callk (dot "hv" ["NdOverlay"]) [v data] [("kdims", k)]]
        [("aggregator", call (dot "ds" ["count_cat"]) [EStr "k"])] ].

Definition cell_17 : list stmt :=
  [ SExpr (call (dot "np" ["random"; "seed"]) [num "3"]);
    assign "kdims" (EList [EStr "d1"; EStr "d2"]);
    assign "num_ks" (num "8");
    SDef "rand_gauss2d" [] None
      [ SReturn
          (EBinOp (num "100") Mult
             (call (dot "np" ["random"; "multivariate_normal"])
                [ call (dot "np" ["random"; "randn"]) [num "2"];
                  call (v "random_cov") [];
                  ETuple [num "100000"] ])) ];
    assign "gaussians"
      (EDictComp (v "i")
         (call (dot "hv" ["Points"])
            [call (v "rand_gauss2d") []; v "kdims"])
         ["i"] (call (v "range") [v "num_ks"]));
    assign "lines"
      (EDictComp (v "i")
         (call (dot "hv" ["Curve"])
            [ callk (v "time_series") []
                [ ("N", num "10000");
                  ("S0", EBinOp (num "200") Add
                           (call (dot "np" ["random"; "rand"]) [])) ] ])
         ["i"] (call (v "range") [v "num_ks"]));
    assign "gaussspread" (category_spread "gaussians" (EStr "k"));
    assign "linespread" (category_spread "lines" (EStr "k"));
    SExpr (method (EBinOp (v "gaussspread") Add (v "linespread")) "opts"
             [callk (dot "opts" ["RGB"]) [] [("width", num "400")]]) ].

Definition cell_19 : list stmt :=
  [ SComment
      "# definition copied here to ensure independent pan/zoom state for each dynamic plot";
    assign "gaussspread" (category_spread "gaussians" (EList [EStr "k"]));
    SImportFrom ["datashader"; "colors"] ["Sets1to3"];
    SComment "# default datashade() and shade() color cycle";
    assign "color_key"
      (call (v "list")
         [call (v "enumerate")
            [ESlice (v "Sets1to3") (num "0") (v "num_ks")]]);
    assign "color_points"
      (call (dot "hv" ["NdOverlay"])
         [ EDictComp (v "k")
             (ECall
                (EAttr
                   (callk (dot "hv" ["Points"]) [EList [num "0"; num "0"]]
                      [("label", call (v "str") [v "k"])])
                   "opts")
                [] [("color", v "v")])
             ["k"; "v"] (v "color_key") ]);
    SExpr (ECall (EAttr (EBinOp (v "color_points") Mult (v "gaussspread"))
                    "opts")
             [] [("width", num "600")]) ].

Definition cell_23 : list stmt :=
  [ SImport ["pandas"] "pd";
    assign "dates"
      (callk (dot "pd" ["date_range"]) []
         [ ("start", EStr "2014-01-01"); ("end", EStr "2016-01-01");
           ("freq", EStr "1D") ]);
    SComment "# or '1min'";
    assign "curve"
      (call (dot "hv" ["Curve"])
         [ ETuple
             [ v "dates";
               callk (v "time_series") []
                 [ ("N", call (v "len") [v "dates"]);
                   ("sigma", num "1") ] ] ]);
    SExpr (ECall
             (EAttr (callk (v "datashade") [v "curve"]
                       [("cmap", EList [EStr "blue"])])
                "opts")
             [] [("width", num "800")]) ].

Definition cell_25 : list stmt :=
  [ SImportFrom ["holoviews"; "operation"; "timeseries"]
      ["rolling"; "rolling_outlier_std"];
    assign "smoothed"
      (callk (v "rolling") [v "curve"] [("rolling_window", num "50")]);
    assign "outliers"
      (callk (v "rolling_outlier_std") [v "curve"]
         [("rolling_window", num "50"); ("sigma", num "2")]);
    assign "ds_curve"
      (callk (v "datashade") [v "curve"] [("cmap", EList [EStr "blue"])]);
    assign "spread"
      (callk (v "dynspread")
         [callk (v "datashade") [v "smoothed"]
            [("cmap", EList [EStr "red"])]]
         [("max_px", num "1")]);
    SExpr (method
             (EBinOp (EBinOp (v "ds_curve") Mult (v "spread"))
                Mult (v "outliers"))
             "opts"
             [ callk (dot "opts" ["Scatter"]) []
                 [ ("line_color", EStr "black"); ("fill_color", EStr "red");
                   ("size", num "10");
                   ("tools", EList [EStr "hover"; EStr "box_select"]);
                   ("width", num "800") ] ]) ].

(** [datashade(points, width=400, height=400)] *)
Definition shaded_points : expr :=
  callk (v "datashade") [v "points"]
    [("width", num "400"); ("height", num "400")].

Definition cell_27 : list stmt :=
  [ SImportFrom ["holoviews"; "streams"] ["RangeXY"];
    assign "fixed_hover"
      (EBinOp shaded_points Mult
         (call (dot "hv" ["QuadMesh"])
            [ callk (v "rasterize") [v "points"]
                [ ("width", num "10"); ("height", num "10");
                  ("dynamic", EBool false) ] ]));
    assign "dynamic_hover"
      (EBinOp shaded_points Mult
         (callk (dot "hv" ["util"; "Dynamic"])
            [ callk (v "rasterize") [v "points"]
                [ ("width", num "10"); ("height", num "10");
                  ("streams", EList [v "RangeXY"]) ] ]
            [("operation", dot "hv" ["QuadMesh"])]));
    SExpr (method (EBinOp (v "fixed_hover") Add (v "dynamic_hover")) "opts"
             [ callk (dot "opts" ["QuadMesh"]) []
                 [ ("tools", EList [EStr "hover"]); ("alpha", num "0");
                   ("hover_alpha", num "0.2") ] ]) ].

(** [aspect=1, axiswise=True, xaxis='bare', yaxis='bare'] *)
Definition bare_axes : list (string * expr) :=
  [ ("aspect", num "1"); ("axiswise", EBool true);
    ("xaxis", EStr "bare"); ("yaxis", EStr "bare") ].

(** [0.5*np.sin(a*xs**2+b*ys**2)+0.5] *)
Definition channel (a b : string) : expr :=
  EBinOp
    (EBinOp (num "0.5") Mult
       (call (dot "np" ["sin"])
          [ EBinOp
              (EBinOp (num a) Mult (EBinOp (v "xs") Pow (num "2")))
              Add
              (EBinOp (num b) Mult (EBinOp (v "ys") Pow (num "2"))) ]))
    Add (num "0.5").

(** [e.relabel(e.__class__.name)] *)
Definition relabelled : expr :=
  method (v "e") "relabel" [dot "e" ["__class__"; "name"]].

(** [10*i/N] *)
Definition abscissa : expr :=
  EBinOp (EBinOp (num "10") Mult (v "i")) Div (v "N").

(** [hv.Image((x,y,z))] *)
Definition image_xyz : expr :=
  call (dot "hv" ["Image"]) [ETuple [v "x"; v "y"; v "z"]].

Definition cell_30 : list stmt :=
  [ SExpr (callk (dot "hv" ["output"]) [] [("backend", EStr "matplotlib")]);
    SExpr (call (dot "opts" ["defaults"])
             [ callk (dot "opts" ["Image"]) [] bare_axes;
               callk (dot "opts" ["RGB"]) [] bare_axes;
               callk (dot "opts" ["Layout"]) []
                 [ ("vspace", num "0.1"); ("hspace", num "0.1");
                   ("sublabel_format", EStr EmptyString) ] ]);
    SExpr (call (dot "np" ["random"; "seed"]) [num "12"]);
    assign "N" (num "100");
    assign "pts"
      (EListComp
         (ETuple [abscissa; call (dot "np" ["sin"]) [abscissa]])
         ["i"] (call (v "range") [v "N"]));
    SAssign [v "x"; v "y"]
      (call (dot "np" ["linspace"])
         [ num "0"; num "5";
           call (v "int") [call (dot "np" ["sqrt"]) [v "N"]] ]);
    SAssign [ETuple [v "xs"; v "ys"]]
      (call (dot "np" ["meshgrid"]) [v "x"; v "y"]);
    assign "z" (EBinOp (call (dot "np" ["sin"]) [v "xs"]) Mult
                  (call (dot "np" ["cos"]) [v "ys"]));
    assign "r" (channel "0.1" "0.05");
    assign "g" (channel "0.02" "0.2");
    assign "b" (channel "0.02" "0.02");
    assign "opts2"
      (callk (v "dict") []
         [("filled", EBool true); ("edge_color", EStr "z")]);
    assign "tri"
      (ECall
         (EAttr
            (call (dot "hv" ["TriMesh"; "from_vertices"])
               [ callk (dot "hv" ["Points"])
                   [call (dot "np" ["random"; "randn"]) [v "N"; num "3"]]
                   [("vdims", EStr "z")] ])
            "opts")
         [] [("**", v "opts2")]);
    SExpr (method
             (EBinOp
                (EBinOp
                   (EBinOp (v "tri") Add (dot "tri" ["edgepaths"]))
                   Add
                   (callk (v "datashade") [v "tri"]
                      [("aggregator", call (dot "ds" ["mean"]) [EStr "z"])]))
                Add (call (v "datashade") [dot "tri" ["edgepaths"]]))
             "cols" [num "2"]);
    assign "shadeable"
      (EListComp (call (v "elemtype") [v "pts"]) ["elemtype"]
         (EList [dot "hv" ["Curve"]; dot "hv" ["Scatter"];
                 dot "hv" ["Points"]]));
    SAugAssign (v "shadeable") Add
      (EList [call (dot "hv" ["Path"]) [EList [v "pts"]]]);
    SAugAssign (v "shadeable") Add
      (EList [ image_xyz;
               call (dot "hv" ["QuadMesh"])
                 [ETuple [v "x"; v "y"; v "z"]] ]);
    SAugAssign (v "shadeable") Add
      (EList [ call (dot "hv" ["Graph"])
                 [ ETuple
                     [ ETuple
                         [ call (dot "np" ["zeros"]) [v "N"];
                           call (dot "np" ["arange"]) [v "N"] ] ] ] ]);
    SAugAssign (v "shadeable") Add (EList [dot "tri" ["edgepaths"]]);
    SAugAssign (v "shadeable") Add (EList [v "tri"]);
    SAugAssign (v "shadeable") Add
      (EList [ callk (dot "hv" ["operation"; "contours"]) [image_xyz]
                 [("levels", num "10")] ]);
    assign "rasterizable"
      (EList
         [ call (dot "hv" ["RGB"])
             [call (dot "np" ["dstack"]) [EList [v "r"; v "g"; v "b"]]];
           call (dot "hv" ["HSV"])
             [call (dot "np" ["dstack"]) [EList [v "g"; v "b"; v "r"]]] ]);
    SExpr (method
             (call (dot "hv" ["Layout"])
                [ EBinOp
                    (EListComp
                       (call (v "dynspread")
                          [call (v "datashade") [relabelled]])
                       ["e"] (v "shadeable"))
                    Add
                    (EListComp (call (v "rasterize") [relabelled])
                       ["e"] (v "rasterizable")) ])
             "cols" [num "6"]) ].

Definition cell_32 : list stmt :=
  [ assign "rgb_opts" (callk (dot "opts" ["RGB"]) [] bare_axes);
    SExpr (method
             (call (dot "hv" ["Layout"])
                [ EListComp (method relabelled "opts" [v "rgb_opts"])
                    ["e"]
                    (EBinOp (v "shadeable") Add (v "rasterizable")) ])
             "cols" [num "6"]) ].

Definition cell_34 : list stmt :=
  [ SExpr (callk (dot "hv" ["output"]) []
             [("dpi", num "80"); ("size", num "100")]);
    assign "curves"
      (EDict
         [ (EStr "+", call (dot "hv" ["Curve"]) [v "pts"]);
           (EStr "-",
            call (dot "hv" ["Curve"])
              [ EListComp
                  (ETuple [v "x"; EBinOp (ENeg (num "1.0")) Mult (v "y")])
                  ["x"; "y"] (v "pts") ]) ]);
    assign "supported"
      (EList
         [ call (dot "hv" ["HoloMap"]) [v "curves"; EStr "sign"];
           call (dot "hv" ["Overlay"])
             [call (v "list") [method (v "curves") "values" []]];
           call (dot "hv" ["NdOverlay"]) [v "curves"];
           call (dot "hv" ["GridSpace"])
             [call (dot "hv" ["NdOverlay"]) [v "curves"]] ]);
    SExpr (method
             (call (dot "hv" ["Layout"])
                [ EListComp (call (v "datashade") [relabelled])
                    ["e"] (v "supported") ])
             "cols" [num "4"]) ].

Definition cell_35 : list stmt :=
  [ SExpr (call (v "dynspread")
             [ call (v "datashade")
                 [ call (dot "hv" ["NdLayout"])
                     [v "curves"; EStr "sign"] ] ]) ].

(** The notebook, cell by cell; a markdown cell is kept by its opening
    words. *)
Definition notebook : list cell :=
  [ Markdown "# Working with large data using Datashader";
    Code cell_1;
    Markdown "This notebook makes use of dynamic updates";
    Markdown "# Principles of datashading";
    Code cell_4;
    Markdown "These browser-based plots are fully interactive";
    Code cell_6;
    Markdown "Luckily, HoloViews Elements are just containers";
    Code cell_8;
    Markdown "Decimating a plot in this way can be useful";
    Code cell_10;
    Markdown "In all three of the above plots";
    Markdown "## Spreading";
    Code cell_13;
    Markdown "Both plots show the same data";
    Code cell_15;
    Markdown "# Multidimensional plots";
    Code cell_17;
    Markdown "Because Bokeh only ever sees an image";
    Code cell_19;
    Markdown "Here the dummy points are at 0,0 for this dataset";
    Markdown "## Working with time series";
    Markdown "HoloViews also makes it possible to datashade large timeseries";
    Code cell_23;
    Markdown "HoloViews also supplies some operations";
    Code cell_25;
    Markdown "Note that the above plot will look blocky in a static export";
    Code cell_27;
    Markdown "In the above examples, the plot on the left";
    Markdown "# Element types supported for Datashading";
    Code cell_30;
    Markdown "Here we called `datashade()` on each Element type";
    Code cell_32;
    Markdown "These two examples use Matplotlib";
    Code cell_34;
    Code cell_35;
    Markdown "# Optimizing performance" ].

End Notebook.

(** ** Reading the cells: scopes, calls, effects *)

Module Analysis.
Import Py.

Definition mem (x : string) (l : list string) : bool :=
  existsb (String.eqb x) l.

Definition remove_all (xs l : list string) : list string :=
  filter (fun y => negb (mem y xs)) l.

Fixpoint dedup (l : list string) : list string :=
  match l with
  | [] => []
  | x :: rest => x :: remove_all [x] (dedup rest)
  end.

(** The names an expression reads from its environment; the targets of
    a comprehension are local to it. *)
Fixpoint expr_names (e : expr) : list string :=
  match e with
  | EName x => [x]
  | ENum _ | EStr _ | EBool _ => []
  | EAttr e _ => expr_names e
  | ECall f args kwargs =>
      expr_names f ++ flat_map expr_names args
      ++ flat_map (fun kv => expr_names (snd kv)) kwargs
  | EBinOp l _ r => expr_names l ++ expr_names r
  | ENeg e => expr_names e
  | EList es | ETuple es => flat_map expr_names es
  | EDict items =>
      flat_map (fun kv => expr_names (fst kv) ++ expr_names (snd kv)) items
  | ESlice e lo hi => expr_names e ++ expr_names lo ++ expr_names hi
  | EListComp elt targets iter =>
      expr_names iter ++ remove_all targets (expr_names elt)
  | EDictComp key val targets iter =>
      expr_names iter
      ++ remove_all targets (expr_names key ++ expr_names val)
  | EIfExp c a b => expr_names c ++ expr_names a ++ expr_names b
  end.

(** The names an assignment target binds: [x], or [(x, y)]. *)
Fixpoint target_binds (t : expr) : list string :=
  match t with
  | EName x => [x]
  | ETuple es | EList es => flat_map target_binds es
  | _ => []
  end.

(** The names an assignment target reads: those of [obj] in
    [obj.attr = ...]. *)
Definition target_reads (t : expr) : list string :=
  match t with
  | EName _ | ETuple _ | EList _ => []
  | _ => expr_names t
  end.

(** The names a statement binds in the scope it runs in. *)
Fixpoint stmt_binds (s : stmt) : list string :=
  match s with
  | SImport _ asname => [asname]
  | SImportFrom _ names => names
  | SAssign targets _ => flat_map target_binds targets
  | SAugAssign target _ _ => target_binds target
  | SDef name _ _ _ => [name]
  | SIf _ body orelse => flat_map stmt_binds body ++ flat_map stmt_binds orelse
  | SFor targets _ body => targets ++ flat_map stmt_binds body
  | SWhile _ body => flat_map stmt_binds body
  | STry body handlers finalbody =>
      flat_map stmt_binds body
      ++ flat_map (flat_map stmt_binds) handlers
      ++ flat_map stmt_binds finalbody
  | SWith _ body => flat_map stmt_binds body
  | SExpr _ | SReturn _ | SComment _ | SRaise _ | SAssert _ => []
  end.

Definition param_defaults (params : list (string * option expr))
  : list expr :=
  flat_map (fun p => match snd p with Some d => [d] | None => [] end) params.

(** The names a statement reads.  A function body reads, from outside,
    what is neither a parameter nor assigned in the body. *)
Fixpoint stmt_reads (s : stmt) : list string :=
  match s with
  | SImport _ _ | SImportFrom _ _ | SComment _ => []
  | SAssign targets value =>
      expr_names value ++ flat_map target_reads targets
  | SAugAssign target _ value => expr_names target ++ expr_names value
  | SExpr e | SReturn e | SRaise e | SAssert e => expr_names e
  | SDef _ params _ body =>
      flat_map expr_names (param_defaults params)
      ++ remove_all (map fst params ++ flat_map stmt_binds body)
           (flat_map stmt_reads body)
  | SIf test body orelse =>
      expr_names test ++ flat_map stmt_reads body
      ++ flat_map stmt_reads orelse
  | SFor _ iter body => expr_names iter ++ flat_map stmt_reads body
  | SWhile test body => expr_names test ++ flat_map stmt_reads body
  | STry body handlers finalbody =>
      flat_map stmt_reads body
      ++ flat_map (flat_map stmt_reads) handlers
      ++ flat_map stmt_reads finalbody
  | SWith context body => expr_names context ++ flat_map stmt_reads body
  end.


(** The names a code cell reads from the kernel namespace as it stood
    before the cell ran: statements run in order, and a name bound by
    an earlier statement of the cell is the cell's own. *)
Fixpoint outside_reads (bound : list string) (body : list stmt)
  : list string :=
  match body with
  | [] => []
  | s :: rest =>
      remove_all bound (stmt_reads s)
      ++ outside_reads (stmt_binds s ++ bound) rest
  end.

Definition cell_reads (body : list stmt) : list string :=
  dedup (outside_reads [] body).

(** The variables a cell assigns at its top level (not its imports and
    not its function definitions). *)
Definition stmt_assigns (s : stmt) : list string :=
  match s with
  | SAssign targets _ => flat_map target_binds targets
  | SAugAssign target _ _ => target_binds target
  | _ => []
  end.

Definition cell_assigns (body : list stmt) : list string :=
  dedup (flat_map stmt_assigns body).

Definition cell_binds (body : list stmt) : list string :=
  dedup (flat_map stmt_binds body).

(** The code cells with their position in the notebook. *)
Fixpoint code_cells_from (i : nat) (nb : list cell)
  : list (nat * list stmt) :=
  match nb with
  | [] => []
  | Markdown _ :: rest => code_cells_from (S i) rest
  | Code body :: rest => (i, body) :: code_cells_from (S i) rest
  end.

Definition code_cells (nb : list cell) : list (nat * list stmt) :=
  code_cells_from 0 nb.

Fixpoint lookup {A} (x : string) (env : list (string * A)) : option A :=
  match env with
  | [] => None
  | (y, a) :: rest => if String.eqb x y then Some a else lookup x rest
  end.

(** Running down the notebook with the table "variable -> the cell that
    last assigned it": every read, by a cell, of a variable assigned in
    an earlier cell, as (variable, assigning cell, reading cell). *)
Fixpoint later_reads_from (env : list (string * nat))
  (cells : list (nat * list stmt)) : list (string * nat * nat) :=
  match cells with
  | [] => []
  | (j, body) :: rest =>
      flat_map (fun x => match lookup x env with
                         | Some i => [(x, i, j)]
                         | None => []
                         end) (cell_reads body)
      ++ later_reads_from
           (map (fun x => (x, j)) (cell_assigns body) ++ env) rest
  end.

Definition later_reads (nb : list cell) : list (string * nat * nat) :=
  later_reads_from [] (code_cells nb).

(** Built-in functions of the language. *)
Definition builtins : list string :=
  [ "abs"; "all"; "any"; "bool"; "dict"; "enumerate"; "float"; "input";
    "int"; "len"; "list"; "map"; "max"; "min"; "open"; "print"; "range";
    "round"; "set"; "sorted"; "str"; "sum"; "tuple"; "zip" ]%string.

(** The reads of a cell that nothing bound before: not an earlier cell,
    not the cell itself, and not a built-in. *)
Fixpoint unbound_reads_from (bound : list string)
  (cells : list (nat * list stmt)) : list (string * nat) :=
  match cells with
  | [] => []
  | (j, body) :: rest =>
      map (fun x => (x, j)) (remove_all (bound ++ builtins) (cell_reads body))
      ++ unbound_reads_from (cell_binds body ++ bound) rest
  end.

Definition unbound_reads (nb : list cell) : list (string * nat) :=
  unbound_reads_from [] (code_cells nb).

(* --------------------------------------------------------------- *)
(** ** Calls *)

(** [a.b.c] as the path [a; b; c]. *)
Fixpoint dotted (e : expr) : option (list string) :=
  match e with
  | EName x => Some [x]
  | EAttr e a => option_map (fun p => p ++ [a]) (dotted e)
  | _ => None
  end.

(** The path of a callee; a method called on a computed value has no
    root name and is written [(); m]. *)
Definition callee_path (f : expr) : list string :=
  match dotted f with
  | Some p => p
  | None => match f with
            | EAttr _ m => ["()"; m]
            | _ => ["()"]
            end
  end%string.

(** The callees of every call inside an expression. *)
Fixpoint expr_calls (e : expr) : list (list string) :=
  match e with
  | EName _ | ENum _ | EStr _ | EBool _ => []
  | EAttr e _ => expr_calls e
  | ECall f args kwargs =>
      callee_path f :: expr_calls f ++ flat_map expr_calls args
      ++ flat_map (fun kv => expr_calls (snd kv)) kwargs
  | EBinOp l _ r => expr_calls l ++ expr_calls r
  | ENeg e => expr_calls e
  | EList es | ETuple es => flat_map expr_calls es
  | EDict items =>
      flat_map (fun kv => expr_calls (fst kv) ++ expr_calls (snd kv)) items
  | ESlice e lo hi => expr_calls e ++ expr_calls lo ++ expr_calls hi
  | EListComp elt _ iter => expr_calls iter ++ expr_calls elt
  | EDictComp key val _ iter =>
      expr_calls iter ++ expr_calls key ++ expr_calls val
  | EIfExp c a b => expr_calls c ++ expr_calls a ++ expr_calls b
  end.

Fixpoint stmt_calls (s : stmt) : list (list string) :=
  match s with
  | SImport _ _ | SImportFrom _ _ | SComment _ => []
  | SAssign targets value =>
      flat_map expr_calls targets ++ expr_calls value
  | SAugAssign target _ value => expr_calls target ++ expr_calls value
  | SExpr e | SReturn e | SRaise e | SAssert e => expr_calls e
  | SDef _ params _ body =>
      flat_map expr_calls (param_defaults params)
      ++ flat_map stmt_calls body
  | SIf test body orelse =>
      expr_calls test ++ flat_map stmt_calls body
      ++ flat_map stmt_calls orelse
  | SFor _ iter body => expr_calls iter ++ flat_map stmt_calls body
  | SWhile test body => expr_calls test ++ flat_map stmt_calls body
  | STry body handlers finalbody =>
      flat_map stmt_calls body
      ++ flat_map (flat_map stmt_calls) handlers
      ++ flat_map stmt_calls finalbody
  | SWith context body => expr_calls context ++ flat_map stmt_calls body
  end.

(** The import table of a statement: local name -> qualified origin. *)
Definition stmt_imports (s : stmt) : list (string * list string) :=
  match s with
  | SImport module asname => [(asname, module)]
  | SImportFrom module names => map (fun n => (n, module ++ [n])) names
  | _ => []
  end.

Definition all_stmts (nb : list cell) : list stmt :=
  flat_map (fun c => snd c) (code_cells nb).

Definition notebook_imports (nb : list cell)
  : list (string * list string) :=
  flat_map stmt_imports (all_stmts nb).

(** A path with its root name replaced by what the root was imported
    as. *)
Definition resolve (imports : list (string * list string))
  (path : list string) : list string :=
  match path with
  | [] => []
  | root :: rest =>
      match lookup root imports with
      | Some origin => origin ++ rest
      | None => path
      end
  end.

(** The function definitions at the top level of the cells. *)
Definition stmt_defs (s : stmt) : list (string * list stmt) :=
  match s with
  | SDef name _ _ body => [(name, body)]
  | _ => []
  end.

Definition function_defs (nb : list cell) : list (string * list stmt) :=
  flat_map stmt_defs (all_stmts nb).

Fixpoint path_eqb (p q : list string) : bool :=
  match p, q with
  | [], [] => true
  | x :: p', y :: q' => String.eqb x y && path_eqb p' q'
  | _, _ => false
  end.

Fixpoint dedup_paths (l : list (list string)) : list (list string) :=
  match l with
  | [] => []
  | p :: rest =>
      p :: filter (fun q => negb (path_eqb p q)) (dedup_paths rest)
  end.

(** The distinct callees of a list of statements, resolved through the
    notebook's imports. *)
Definition resolved_calls (nb : list cell) (body : list stmt)
  : list (list string) :=
  dedup_paths (map (resolve (notebook_imports nb))
                 (flat_map stmt_calls body)).

(** Does a resolved path lie in one of the packages? *)
Definition in_packages (packages : list string) (path : list string)
  : bool :=
  match path with
  | [] => false
  | root :: _ => mem root packages
  end.


(** The rasterization and plotting libraries the notebook is about. *)
Definition plotting_packages : list string :=
  ["holoviews"; "datashader"]%string.

(** Does some call in the statements go to one of the packages? *)
Definition delegates_to (packages : list string) (nb : list cell)
  (body : list stmt) : bool :=
  existsb (in_packages packages) (resolved_calls nb body).

(** Is [op] a name the notebook imports from one of the packages and
    never defines itself? *)
Definition imported_not_defined (packages : list string) (nb : list cell)
  (op : string) : bool :=
  match lookup op (notebook_imports nb) with
  | Some origin =>
      in_packages packages origin && negb (mem op (map fst (function_defs nb)))
  | None => false
  end.

(* --------------------------------------------------------------- *)
(** ** What a cell shows *)

Definition is_comment (s : stmt) : bool :=
  match s with
  | SComment _ => true
  | _ => false
  end.

(** The kernel displays the value of a cell whose last statement is an
    expression; comments are not statements. *)
Definition cell_displays (body : list stmt) : bool :=
  match rev (filter (fun s => negb (is_comment s)) body) with
  | SExpr _ :: _ => true
  | _ => false
  end.

(* --------------------------------------------------------------- *)
(** ** Attributes set on imported objects *)

(** [obj.attr = value], with [obj] resolved through the imports. *)
Definition attr_write : Type := list string * string * expr.

Definition target_attr_write (imports : list (string * list string))
  (value : expr) (t : expr) : list attr_write :=
  match t with
  | EAttr obj a =>
      match dotted obj with
      | Some p => [(resolve imports p, a, value)]
      | None => []
      end
  | _ => []
  end.

(** Every attribute assignment in a statement, function bodies and
    branches included. *)
Fixpoint stmt_attr_writes (imports : list (string * list string))
  (s : stmt) : list attr_write :=
  match s with
  | SAssign targets value =>
      flat_map (target_attr_write imports value) targets
  | SAugAssign target _ value => target_attr_write imports value target
  | SDef _ _ _ body => flat_map (stmt_attr_writes imports) body
  | SIf _ body orelse =>
      flat_map (stmt_attr_writes imports) body
      ++ flat_map (stmt_attr_writes imports) orelse
  | SFor _ _ body | SWhile _ body | SWith _ body =>
      flat_map (stmt_attr_writes imports) body
  | STry body handlers finalbody =>
      flat_map (stmt_attr_writes imports) body
      ++ flat_map (flat_map (stmt_attr_writes imports)) handlers
      ++ flat_map (stmt_attr_writes imports) finalbody
  | _ => []
  end.

(** The attribute assignments a cell performs when it runs: those of
    its top-level statements (a [def] only binds a name). *)
Definition toplevel_attr_writes (imports : list (string * list string))
  (s : stmt) : list attr_write :=
  match s with
  | SAssign targets value =>
      flat_map (target_attr_write imports value) targets
  | _ => []
  end.

(** The parameters overridden so far on the objects of the imported
    libraries; the latest write is first. *)
Definition attr_store : Type := list attr_write.

Fixpoint read_attr (store : attr_store) (obj : list string) (a : string)
  : option expr :=
  match store with
  | [] => None
  | (obj', a', value) :: rest =>
      if path_eqb obj obj' && String.eqb a a' then Some value
      else read_attr rest obj a
  end.

(** Running a cell, as far as this store goes. *)
Definition run_cell_attrs (imports : list (string * list string))
  (body : list stmt) (store : attr_store) : attr_store :=
  fold_left (fun st w => w :: st)
    (flat_map (toplevel_attr_writes imports) body) store.

(** The cells that call the object at a resolved path. *)
Definition cells_calling (nb : list cell) (target : list string)
  : list nat :=
  map fst
    (filter (fun c => existsb (path_eqb target)
                        (resolved_calls nb (snd c)))
       (code_cells nb)).

(* --------------------------------------------------------------- *)
(** ** Error handling and branching *)

Fixpoint expr_branches (e : expr) : bool :=
  match e with
  | EName _ | ENum _ | EStr _ | EBool _ => false
  | EAttr e _ | ENeg e => expr_branches e
  | ECall f args kwargs =>
      expr_branches f || existsb expr_branches args
      || existsb (fun kv => expr_branches (snd kv)) kwargs
  | EBinOp l _ r => expr_branches l || expr_branches r
  | EList es | ETuple es => existsb expr_branches es
  | EDict items =>
      existsb (fun kv => expr_branches (fst kv) || expr_branches (snd kv))
        items
  | ESlice e lo hi =>
      expr_branches e || expr_branches lo || expr_branches hi
  | EListComp elt _ iter => expr_branches elt || expr_branches iter
  | EDictComp key val _ iter =>
      expr_branches key || expr_branches val || expr_branches iter
  | EIfExp _ _ _ => true
  end.

(** Does a statement contain [try], [raise], [assert], an [if] or a
    conditional expression, at any depth? *)
Fixpoint stmt_handles_errors (s : stmt) : bool :=
  match s with
  | STry _ _ _ | SRaise _ | SAssert _ | SIf _ _ _ => true
  | SImport _ _ | SImportFrom _ _ | SComment _ => false
  | SAssign targets value =>
      existsb expr_branches targets || expr_branches value
  | SAugAssign target _ value =>
      expr_branches target || expr_branches value
  | SExpr e | SReturn e => expr_branches e
  | SDef _ params _ body =>
      existsb expr_branches (param_defaults params)
      || existsb stmt_handles_errors body
  | SFor _ iter body =>
      expr_branches iter || existsb stmt_handles_errors body
  | SWhile test body =>
      expr_branches test || existsb stmt_handles_errors body
  | SWith context body =>
      expr_branches context || existsb stmt_handles_errors body
  end.

(* --------------------------------------------------------------- *)
(** ** Files and other stores *)

(** The packages a notebook imports from. *)
Definition imported_packages (nb : list cell) : list string :=
  dedup (flat_map (fun i => match snd i with
                            | pkg :: _ => [pkg]
                            | [] => []
                            end) (notebook_imports nb)).

(** Modules of the standard library that reach files, sockets,
    processes or databases. *)
Definition io_modules : list string :=
  [ "os"; "io"; "sys"; "pathlib"; "shutil"; "tempfile"; "glob"; "pickle";
    "json"; "csv"; "sqlite3"; "socket"; "urllib"; "requests"; "http";
    "subprocess"; "h5py" ]%string.

(** Functions and methods that read or write a file or a stream, by
    their last name: the built-ins, numpy's, pandas' and the plotting
    libraries' exporters. *)
Definition io_functions : list string :=
  [ "open"; "input"; "load"; "save"; "savez"; "savez_compressed";
    "loadtxt"; "savetxt"; "genfromtxt"; "fromfile"; "tofile"; "memmap";
    "dump"; "read_csv"; "read_table"; "read_excel"; "read_json";
    "read_parquet"; "read_pickle"; "read_hdf"; "read_sql"; "to_csv";
    "to_excel"; "to_json"; "to_parquet"; "to_pickle"; "to_hdf"; "to_sql";
    "savefig"; "export_image"; "write"; "read"; "urlopen"; "connect" ]%string.

Definition is_io_call (path : list string) : bool :=
  match path with
  | [] => false
  | root :: _ => mem root io_modules || mem (last path root) io_functions
  end.

Fixpoint stmt_uses_with (s : stmt) : bool :=
  match s with
  | SWith _ _ => true
  | SDef _ _ _ body | SFor _ _ body | SWhile _ body =>
      existsb stmt_uses_with body
  | SIf _ body orelse =>
      existsb stmt_uses_with body || existsb stmt_uses_with orelse
  | STry body handlers finalbody =>
      existsb stmt_uses_with body
      || existsb (existsb stmt_uses_with) handlers
      || existsb stmt_uses_with finalbody
  | _ => false
  end.

(* --------------------------------------------------------------- *)
(** ** Seeding and sampling *)

(** The calls made when a statement runs: a [def] only binds its name. *)
Definition stmt_runs_calls (s : stmt) : list (list string) :=
  match s with
  | SDef _ _ _ _ => []
  | _ => stmt_calls s
  end.

(** [np.random.seed] *)
Definition seed_path : list string := ["numpy"; "random"; "seed"]%string.

(** A function of [np.random] other than [seed]: it draws. *)
Definition is_sampling_call (path : list string) : bool :=
  match path with
  | pkg :: sub :: name :: _ =>
      String.eqb pkg "numpy" && String.eqb sub "random"
      && negb (String.eqb name "seed")
  | _ => false
  end.

(** Does one of the calls draw from the generator, directly or inside a
    function of the notebook?  [depth] bounds the chain of notebook
    functions that is followed. *)
Fixpoint calls_sample (nb : list cell) (depth : nat)
  (calls : list (list string)) : bool :=
  existsb is_sampling_call calls
  || match depth with
     | O => false
     | S depth' =>
         existsb
           (fun callee =>
              match callee with
              | [name] =>
                  match lookup name (function_defs nb) with
                  | Some body =>
                      calls_sample nb depth'
                        (map (resolve (notebook_imports nb))
                           (flat_map stmt_calls body))
                  | None => false
                  end
              | _ => false
              end) calls
     end.

(** Going down the statements of a cell: [Some true] when the first
    statement to touch the generator seeds it, [Some false] when it
    draws, [None] when the cell leaves the generator alone. *)
Fixpoint seeds_before_sampling (nb : list cell) (body : list stmt)
  : option bool :=
  match body with
  | [] => None
  | s :: rest =>
      let calls := map (resolve (notebook_imports nb)) (stmt_runs_calls s) in
      if existsb (path_eqb seed_path) calls then Some true
      else if calls_sample nb (length (function_defs nb)) calls
           then Some false
           else seeds_before_sampling nb rest
  end.

(* --------------------------------------------------------------- *)
(** ** Reaching the file system *)




End Analysis.

(* ================================================================= *)
(** * Properties of the numpy model *)

(** The model on small inputs. *)

Ltac fin_list :=
  repeat (apply (f_equal2 (@cons pyfloat)); [apply (f_equal Fin); lra|]);
  reflexivity.

Example np_convolve_example :
  np_convolve [Fin 1; Fin 2; Fin 3] [Fin 0; Fin 1; Fin 0.5]
  = Ok [Fin 0; Fin 1; Fin 2.5; Fin 4; Fin 1.5].
Proof.
  unfold np_convolve, conv_at, fsum. simpl.
  f_equal. fin_list.
Qed.

Example np_convolve_swaps :
  np_convolve [Fin 2] [Fin 1; Fin 3] = Ok [Fin 2; Fin 6].
Proof.
  unfold np_convolve, conv_at, fsum. simpl.
  f_equal. fin_list.
Qed.

Example np_cumsum_example :
  np_cumsum [Fin 1; Fin 2; Fin 3] = [Fin 1; Fin 3; Fin 6].
Proof.
  unfold np_cumsum. simpl.
  fin_list.
Qed.

Example np_linspace_example :
  np_linspace 0 1 3 = Ok [Fin 0; Fin 0.5; Fin 1].
Proof.
  unfold np_linspace. simpl.
  f_equal. fin_list.
Qed.

Example np_linspace_single : np_linspace 0 7 1 = Ok [Fin 0].
Proof. reflexivity. Qed.

Example iadd_shape_mismatch :
  iadd [Fin 1; Fin 2; Fin 3] [Fin 1; Fin 2] = Raise ValueError.
Proof. reflexivity. Qed.

Example np_column_stack_example :
  np_column_stack [[Fin 1; Fin 2]; [Fin 3; Fin 4]]
  = Ok [[Fin 1; Fin 3]; [Fin 2; Fin 4]].
Proof. reflexivity. Qed.

Example transpose_example :
  transpose [[Fin 1; Fin 2]; [Fin 3; Fin 4]]
  = [[Fin 1; Fin 3]; [Fin 2; Fin 4]].
Proof. reflexivity. Qed.

Example days_from_civil_epoch : days_from_civil 1970 1 1 = 0.
Proof. reflexivity. Qed.

Example dates_of_two_years :
  len (pd_date_range_daily (2014, 1, 1) (2016, 1, 1)) = 731.
Proof. reflexivity. Qed.

Lemma bind_ok {rng A B} (m : M rng A) (k : A -> M rng B) st a st' :
  m st = Ok (a, st') -> bind m k st = k a st'.
Proof. intros H. unfold bind. now rewrite H. Qed.

Lemma bind_raise {rng A B} (m : M rng A) (k : A -> M rng B) st e :
  m st = Raise e -> bind m k st = Raise e.
Proof. intros H. unfold bind. now rewrite H. Qed.

Lemma lift_ok {rng A} (r : result A) (a : A) (st : rng) :
  r = Ok a -> lift r st = Ok (a, st).
Proof. intros ->. reflexivity. Qed.

Lemma lift_raise {rng A} (r : result A) e (st : rng) :
  r = Raise e -> lift r st = Raise e.
Proof. intros ->. reflexivity. Qed.

Lemma cumsum_from_length acc arr :
  length (cumsum_from acc arr) = length arr.
Proof.
  revert acc. induction arr as [|x rest IH]; intros acc; simpl.
  - reflexivity.
  - now rewrite IH.
Qed.

Lemma np_cumsum_length arr : length (np_cumsum arr) = length arr.
Proof. apply cumsum_from_length. Qed.

Lemma zip_with_length {A B C} (f : A -> B -> C) l1 l2 :
  length l1 = length l2 -> length (zip_with f l1 l2) = length l1.
Proof.
  revert l2. induction l1 as [|x l1 IH]; intros [|y l2] H; simpl in *;
    try reflexivity; try discriminate.
  f_equal. apply IH. congruence.
Qed.

Lemma np_ones_ok f :
  0 <= f -> np_ones f = Ok (repeat (Fin 1) (Z.to_nat f)).
Proof.
  intros H. unfold np_ones.
  destruct (Z.ltb_spec f 0); [lia | reflexivity].
Qed.

Lemma np_convolve_ok a v :
  a <> [] -> v <> [] ->
  exists c, np_convolve a v = Ok c
            /\ length c = (length a + length v - 1)%nat.
Proof.
  intros Ha Hv. unfold np_convolve.
  destruct a as [|x a]; [congruence|].
  destruct v as [|y v]; [congruence|].
  destruct (length (x :: a) <? length (y :: v))%nat;
    eexists; split; try reflexivity;
    rewrite length_map, length_seq; lia.
Qed.

Lemma np_convolve_empty_l v : np_convolve [] v = Raise ValueError.
Proof. reflexivity. Qed.

Lemma np_convolve_empty_r a : np_convolve a [] = Raise ValueError.
Proof. destruct a; reflexivity. Qed.

Lemma iadd_same_length xs ys :
  length ys = length xs ->
  iadd xs ys = Ok (zip_with fadd xs ys).
Proof. intros H. unfold iadd. now rewrite H, Nat.eqb_refl. Qed.

Lemma np_add_same_length xs ys :
  length ys = length xs ->
  np_add xs ys = Ok (zip_with fadd xs ys).
Proof. intros H. unfold np_add. now rewrite H, Nat.eqb_refl. Qed.

Lemma np_column_stack_pair xs ys :
  length ys = length xs ->
  np_column_stack [xs; ys]
  = Ok (map (fun i => [nth i xs NaN; nth i ys NaN]) (seq 0 (length xs))).
Proof.
  intros H. unfold np_column_stack. simpl forallb.
  now rewrite H, Nat.eqb_refl.
Qed.

Lemma py_range_length k : length (py_range k) = Z.to_nat k.
Proof. unfold py_range. now rewrite length_map, length_seq. Qed.

Section RandomFacts.
Context {rng : Type} `{G : Generator rng}.

Lemma gauss_draws_length k (st : rng) :
  length (fst (gauss_draws k st)) = k.
Proof.
  revert st. induction k as [|k IH]; intros st; simpl.
  - reflexivity.
  - destruct (next_gauss st) as [x st1].
    specialize (IH st1). destruct (gauss_draws k st1) as [xs st2].
    simpl in *. now rewrite IH.
Qed.

Lemma np_random_normal_ok loc scale size (st : rng) :
  0 <= size ->
  exists a st', np_random_normal loc scale size st = Ok (a, st')
                /\ length a = Z.to_nat size.
Proof.
  intros H. unfold np_random_normal.
  destruct (Z.ltb_spec size 0); [lia|].
  pose proof (gauss_draws_length (Z.to_nat size) st) as L.
  destruct (gauss_draws (Z.to_nat size) st) as [zs st'].
  do 2 eexists. split; [reflexivity|].
  now rewrite length_map.
Qed.

Lemma np_random_normal_negative loc scale size (st : rng) :
  size < 0 -> np_random_normal loc scale size st = Raise ValueError.
Proof.
  intros H. unfold np_random_normal.
  destruct (Z.ltb_spec size 0); [reflexivity | lia].
Qed.

Lemma np_random_standard_normal_ok size (st : rng) :
  0 <= size ->
  exists zs st', np_random_standard_normal size st = Ok (map Fin zs, st')
                 /\ length zs = Z.to_nat size.
Proof.
  intros H. unfold np_random_standard_normal.
  destruct (Z.ltb_spec size 0); [lia|].
  pose proof (gauss_draws_length (Z.to_nat size) st) as L.
  destruct (gauss_draws (Z.to_nat size) st) as [zs st'].
  do 2 eexists. split; [reflexivity|]. exact L.
Qed.

(** The smoothed cumulative walk along one axis. *)
Lemma smoothed_axis_ok n f (a : ndarray) :
  1 <= n -> 1 <= f -> length a = Z.to_nat n ->
  exists c, np_convolve a (div_scalar (repeat (Fin 1) (Z.to_nat f)) (of_int f))
            = Ok c
            /\ length c = Z.to_nat (n - 1 + f).
Proof.
  intros Hn Hf La.
  destruct (np_convolve_ok a
              (div_scalar (repeat (Fin 1) (Z.to_nat f)) (of_int f)))
    as (c & Hc & Lc).
  - intros ->. simpl in La. lia.
  - unfold div_scalar. intros E. apply (f_equal (@length _)) in E.
    rewrite length_map, repeat_length in E. simpl in E. lia.
  - exists c. split; [exact Hc|].
    rewrite Lc. unfold div_scalar. rewrite length_map, repeat_length. lia.
Qed.

Lemma random_walk_returns (n f : Z) (st : rng) :
  1 <= n -> 1 <= f ->
  exists arr st',
    random_walk n f st = Ok (arr, st') /\ has_shape arr (n + f - 1) 2.
Proof.
  intros Hn Hf. unfold random_walk.
  destruct (np_random_normal_ok 0 0.1 n st) as (a1 & s1 & E1 & L1); [lia|].
  rewrite (bind_ok _ _ _ _ _ E1).
  rewrite (bind_ok _ _ _ _ _ (lift_ok _ _ s1 (np_ones_ok f ltac:(lia)))).
  destruct (smoothed_axis_ok n f a1 Hn Hf L1) as (c1 & C1 & LC1).
  rewrite (bind_ok _ _ _ _ _ (lift_ok _ _ s1 C1)).
  destruct (np_random_normal_ok 0 0.1 n s1) as (a2 & s2 & E2 & L2); [lia|].
  rewrite (bind_ok _ _ _ _ _ E2).
  rewrite (bind_ok _ _ _ _ _ (lift_ok _ _ s2 (np_ones_ok f ltac:(lia)))).
  destruct (smoothed_axis_ok n f a2 Hn Hf L2) as (c2 & C2 & LC2).
  rewrite (bind_ok _ _ _ _ _ (lift_ok _ _ s2 C2)).
  cbv zeta.
  set (wobble := scalar_mul (Fin 0.1) _).
  assert (LW : length wobble = length (np_cumsum c1)).
  { unfold wobble, scalar_mul, np_sin, np_array.
    rewrite !length_map, py_range_length, np_cumsum_length. congruence. }
  rewrite (bind_ok _ _ _ _ _ (lift_ok _ _ s2 (iadd_same_length _ _ LW))).
  destruct (np_random_normal_ok 0 0.005 (n - 1 + f) s2)
    as (e1 & s3 & E3 & L3); [lia|].
  rewrite (bind_ok _ _ _ _ _ E3).
  set (xs1 := zip_with fadd (np_cumsum c1) wobble).
  assert (LX1 : length xs1 = Z.to_nat (n - 1 + f)).
  { unfold xs1. rewrite zip_with_length by congruence.
    now rewrite np_cumsum_length. }
  rewrite (bind_ok _ _ _ _ _
             (lift_ok _ _ s3 (iadd_same_length xs1 e1 ltac:(congruence)))).
  destruct (np_random_normal_ok 0 0.005 (n - 1 + f) s3)
    as (e2 & s4 & E4 & L4); [lia|].
  rewrite (bind_ok _ _ _ _ _ E4).
  assert (LY : length e2 = length (np_cumsum c2)).
  { rewrite np_cumsum_length. congruence. }
  rewrite (bind_ok _ _ _ _ _ (lift_ok _ _ s4 (iadd_same_length _ _ LY))).
  set (xs2 := zip_with fadd xs1 e1).
  set (ys2 := zip_with fadd (np_cumsum c2) e2).
  assert (LX2 : length xs2 = Z.to_nat (n - 1 + f)).
  { unfold xs2. rewrite zip_with_length; congruence. }
  assert (LY2 : length ys2 = Z.to_nat (n - 1 + f)).
  { unfold ys2. rewrite zip_with_length by congruence.
    now rewrite np_cumsum_length. }
  do 2 eexists.
  split; [apply lift_ok, np_column_stack_pair; congruence|].
  split.
  - unfold len. rewrite length_map, length_seq, LX2. lia.
  - apply Forall_forall. intros row Hin.
    apply in_map_iff in Hin. destruct Hin as (i & <- & _). reflexivity.
Qed.

(** C8. For every [n >= 1] and [f >= 1], [random_walk n f] returns
    normally, and the array it returns has shape [(n + f - 1, 2)]:
    [n + f - 1] rows of two coordinates each. *)
Theorem random_walk_shape (n f : Z) (st : rng) :
  1 <= n -> 1 <= f ->
  exists arr st',
    random_walk n f st = Ok (arr, st') /\ has_shape arr (n + f - 1) 2.
Proof. intros Hn Hf. now apply random_walk_returns. Qed.

End RandomFacts.

(* ----------------------------------------------------------------- *)
(** ** Finite and non-finite entries *)

Lemma Forall_finite_map_Fin (zs : list R) : Forall is_finite (map Fin zs).
Proof. induction zs; simpl; constructor; simpl; auto. Qed.

Lemma cumsum_from_finite a arr :
  Forall is_finite arr -> Forall is_finite (cumsum_from (Fin a) arr).
Proof.
  revert a. induction arr as [|x rest IH]; intros a H; simpl.
  - constructor.
  - inversion H as [|? ? Hx Hrest]; subst.
    destruct x as [r|]; [|contradiction]. simpl.
    constructor; [exact I|]. now apply IH.
Qed.

Lemma map_finite (g : pyfloat -> pyfloat) arr :
  (forall x, is_finite x -> is_finite (g x)) ->
  Forall is_finite arr -> Forall is_finite (map g arr).
Proof.
  intros Hg H. induction H; simpl; constructor; auto.
Qed.

Lemma zip_with_fadd_finite xs ys :
  Forall is_finite xs -> Forall is_finite ys ->
  Forall is_finite (zip_with fadd xs ys).
Proof.
  intros Hx. revert ys. induction Hx as [|x xs Hx0 Hxs IH]; intros ys Hy.
  - constructor.
  - destruct Hy as [|y ys Hy0 Hys]; simpl; [constructor|].
    constructor; [|now apply IH].
    destruct x, y; simpl in *; auto.
Qed.

Lemma fmul_finite x y : is_finite x -> is_finite y -> is_finite (fmul x y).
Proof. destruct x, y; simpl; auto. Qed.

Lemma geometric_positive S0 X :
  (0 < S0)%R -> Forall is_finite X ->
  Forall fpositive (scalar_mul (Fin S0) (np_exp X)).
Proof.
  intros HS H. unfold scalar_mul, np_exp.
  induction H as [|x X Hx HX IH]; simpl; constructor; auto.
  destruct x as [r|]; [|contradiction]. simpl.
  apply Rmult_lt_0_compat; [exact HS | apply exp_pos].
Qed.


Lemma np_linspace_ok start stop num :
  0 <= num ->
  exists t, np_linspace start stop num = Ok t
            /\ length t = Z.to_nat num /\ Forall is_finite t.
Proof.
  intros H. unfold np_linspace.
  destruct (Z.ltb_spec num 0); [lia|].
  eexists. split; [reflexivity|]. split.
  - now rewrite length_map, py_range_length.
  - apply Forall_forall. intros x Hin.
    apply in_map_iff in Hin. destruct Hin as (i & <- & _). exact I.
Qed.

Section HelperFacts.
Context {rng : Type} `{G : Generator rng}.

(** C9. Whatever the four normal draws are, [random_cov] returns a
    2x2 matrix that equals its transpose and whose quadratic form is
    non-negative at every real vector. *)
Theorem random_cov_symmetric_psd (st : rng) :
  exists m st',
    random_cov st = Ok (m, st')
    /\ has_shape m 2 2
    /\ transpose m = m
    /\ forall x0 x1 : R, fnonneg (quad_form m [Fin x0; Fin x1]).
Proof.
  unfold random_cov, bind, np_random_randn. simpl.
  destruct (next_gauss st) as [a s1].
  destruct (next_gauss s1) as [b s2].
  destruct (next_gauss s2) as [c s3].
  destruct (next_gauss s3) as [d s4].
  simpl. do 2 eexists. split; [reflexivity|].
  split; [|split].
  - split; [reflexivity|]. repeat constructor.
  - unfold transpose, fsum. simpl.
    replace (0 + c * a + d * b)%R with (0 + a * c + b * d)%R by ring.
    reflexivity.
  - intros x0 x1. unfold quad_form, fsum. simpl.
    replace (0 + x0 * (0 + (0 + a * a + b * b) * x0 + (0 + a * c + b * d) * x1)
             + x1 * (0 + (0 + c * a + d * b) * x0 + (0 + c * c + d * d) * x1))%R
      with ((a * x0 + c * x1) ^ 2 + (b * x0 + d * x1) ^ 2)%R by ring.
    apply Rplus_le_le_0_compat; apply pow2_ge_0.
Qed.

Lemma time_series_steps T N mu sigma S0 (st : rng) :
  1 <= N ->
  exists t zs st',
    length t = Z.to_nat N /\ Forall is_finite t
    /\ length zs = Z.to_nat N
    /\ time_series T N mu sigma S0 st
       = Ok (scalar_mul (Fin S0)
               (np_exp
                  (zip_with fadd
                     (scalar_mul (Fin (mu - 0.5 * sigma ^ 2)) t)
                     (scalar_mul (Fin sigma)
                        (mul_scalar (np_cumsum (map Fin zs))
                           (fsqrt (Fin (T / IZR N))))))), st').
Proof.
  intros HN. unfold time_series, py_truediv.
  destruct (Z.eqb_spec N 0); [lia|].
  destruct (np_linspace_ok 0 T N) as (t & Et & Lt & Ft); [lia|].
  destruct (np_random_standard_normal_ok N st) as (zs & st' & Ez & Lz); [lia|].
  exists t, zs, st'. repeat (split; [assumption|]).
  unfold bind at 1. simpl lift at 1. cbv iota beta.
  rewrite (bind_ok _ _ _ _ _ (lift_ok _ _ st Et)).
  rewrite (bind_ok _ _ _ _ _ Ez).
  cbv zeta.
  erewrite bind_ok; [reflexivity|].
  apply lift_ok, np_add_same_length.
  unfold scalar_mul, mul_scalar.
  rewrite !length_map, np_cumsum_length, length_map. congruence.
Qed.


End HelperFacts.

(** On the counter generator: two steps smoothed over three. *)
Lemma random_walk_shape_witness :
  exists arr st',
    random_walk 2 3 0%nat = Ok (arr, st') /\ has_shape arr (2 + 3 - 1) 2.
Proof. apply (random_walk_shape 2 3 0%nat); lia. Defined.


(* ================================================================= *)
(** * What the cells contain *)

Section Cells.
Import Py Notebook Analysis.
Local Open Scope string_scope.

(** C1 as first stated fails: the notebook defines [random_walk], and
    nothing in its body calls into HoloViews or Datashader. *)
Lemma random_walk_does_not_delegate :
  exists params doc body,
    In (SDef "random_walk" params doc body) cell_1
    /\ In ("random_walk", body) (function_defs notebook)
    /\ delegates_to plotting_packages notebook body = false.
Proof.
  do 3 eexists. split; [|split].
  - unfold cell_1. do 10 right. left. reflexivity.
  - vm_compute. left. reflexivity.
  - vm_compute. reflexivity.
Qed.

(** C1, as the code has it.  The notebook defines four functions of its
    own: [random_walk], [random_cov], [time_series] and [rand_gauss2d].
    Every call in their bodies goes to numpy, to a built-in ([range],
    [float]), to the notebook's own [random_cov] or to the [cumsum]
    method of an array; none goes to HoloViews or Datashader.  The
    operations [rasterize], [shade], [datashade], [dynspread] and
    [decimate] are imported from HoloViews and not defined here. *)
Theorem notebook_functions_use_numpy_only :
  map fst (function_defs notebook)
  = ["random_walk"; "random_cov"; "time_series"; "rand_gauss2d"]
  /\ Forall
       (fun d =>
          Forall
            (fun callee =>
               in_packages ["numpy"] callee = true
               \/ In callee [["range"]; ["float"]; ["random_cov"];
                             ["()"; "cumsum"]])
            (resolved_calls notebook (snd d))
          /\ delegates_to plotting_packages notebook (snd d) = false)
       (function_defs notebook)
  /\ Forall
       (fun op => imported_not_defined plotting_packages notebook op = true)
       ["rasterize"; "shade"; "datashade"; "dynspread"; "decimate"].
Proof.
  split; [reflexivity|]. split.
  - vm_compute function_defs.
    repeat (apply Forall_cons; [split; [|vm_compute; reflexivity]|]);
      try apply Forall_nil.
    all: vm_compute resolved_calls.
    all: repeat (apply Forall_cons;
                 [first [left; reflexivity | right; simpl; tauto]|]).
    all: apply Forall_nil.
  - repeat (apply Forall_cons; [vm_compute; reflexivity|]).
    apply Forall_nil.
Qed.

(** C2 as first stated fails: [points], assigned in cell 6, is read by
    cell 8, and by cells 10, 13 and 27 after it. *)
Lemma points_read_in_later_cells :
  In (6%nat, cell_6) (code_cells notebook)
  /\ In "points" (cell_assigns cell_6)
  /\ Forall (fun j => exists body,
                 In (j, body) (code_cells notebook)
                 /\ (6 < j)%nat
                 /\ In "points" (cell_reads body))
       [8%nat; 10%nat; 13%nat; 27%nat].
Proof.
  split; [vm_compute; tauto|].
  split; [vm_compute; tauto|].
  repeat (apply Forall_cons;
          [eexists; split; [vm_compute; tauto|];
           split; [lia | vm_compute; tauto]|]).
  apply Forall_nil.
Qed.

(** C2, as the code has it.  A dataset is constructed inline in one code
    cell and stays bound for the cells after it.  The reads of a variable
    by a later cell than the one that assigned it are exactly these
    (variable, assigning cell, reading cell); and no cell reads a name
    that neither it nor an earlier cell has bound. *)
Theorem datasets_outlive_their_cell :
  later_reads notebook
  = [ ("points", 6, 8); ("paths", 6, 8); ("points", 6, 10);
      ("points", 6, 13); ("paths", 6, 15); ("gaussians", 17, 19);
      ("num_ks", 17, 19); ("curve", 23, 25); ("points", 6, 27);
      ("shadeable", 30, 32); ("rasterizable", 30, 32);
      ("pts", 30, 34); ("curves", 34, 35) ]%nat
  /\ unbound_reads notebook = [].
Proof. split; vm_compute; reflexivity. Qed.

(** C3 as first stated fails: the first code cell ends in a function
    definition and the cell that rebuilds [points] with a million rows
    ends in an assignment (its [points + paths] is a comment); neither
    shows anything. *)
Lemma setup_cells_show_nothing :
  In (1%nat, cell_1) (code_cells notebook)
  /\ cell_displays cell_1 = false
  /\ In (6%nat, cell_6) (code_cells notebook)
  /\ cell_displays cell_6 = false.
Proof. repeat split; vm_compute; tauto. Qed.

(** C3, as the code has it.  The notebook is a sequence of 37 cells, 16
    of them code; run top to bottom, every code cell but the first and
    the one at position 6 ends in an expression, whose value is shown
    inline. *)
Theorem code_cells_that_display :
  length notebook = 37%nat
  /\ map fst (code_cells notebook)
     = [1; 4; 6; 8; 10; 13; 15; 17; 19; 23; 25; 27; 30; 32; 34; 35]%nat
  /\ map fst (filter (fun c => negb (cell_displays (snd c)))
                (code_cells notebook))
     = [1; 6]%nat
  /\ map fst (filter (fun c => cell_displays (snd c)) (code_cells notebook))
     = [4; 8; 10; 13; 15; 17; 19; 23; 25; 27; 30; 32; 34; 35]%nat.
Proof. repeat split; vm_compute; reflexivity. Qed.

(** C4 as first stated fails: [decimate] names an object of HoloViews,
    not one the cell creates, and running the first code cell changes the
    value of [max_samples] on it. *)
Lemma first_cell_sets_library_parameters :
  lookup "decimate" (notebook_imports notebook)
  = Some ["holoviews"; "operation"; "decimate"]
  /\ read_attr [] ["holoviews"; "operation"; "decimate"] "max_samples" = None
  /\ read_attr (run_cell_attrs (notebook_imports notebook) cell_1 [])
       ["holoviews"; "operation"; "decimate"] "max_samples"
     = Some (ENum "1000").
Proof. repeat split; vm_compute; reflexivity. Qed.

(** C4, as the code has it.  The first code cell sets three class-level
    parameters on operations it imports, [decimate.max_samples = 1000],
    [dynspread.max_px = 20] and [dynspread.threshold = 0.5]; these are
    the only attribute assignments anywhere in the notebook, so every
    other cell leaves the parameters as they are; and the cells that
    later call the two operations are cell 8 ([decimate]) and cells 13,
    15, 17, 19, 25, 30 and 35 ([dynspread]). *)
Theorem parameters_set_once_used_later :
  flat_map (stmt_attr_writes (notebook_imports notebook)) (all_stmts notebook)
  = [ (["holoviews"; "operation"; "decimate"], "max_samples", ENum "1000");
      (["holoviews"; "operation"; "datashader"; "dynspread"], "max_px",
       ENum "20");
      (["holoviews"; "operation"; "datashader"; "dynspread"], "threshold",
       ENum "0.5") ]
  /\ flat_map (toplevel_attr_writes (notebook_imports notebook)) cell_1
     = flat_map (stmt_attr_writes (notebook_imports notebook))
         (all_stmts notebook)
  /\ Forall
       (fun c =>
          fst c = 1%nat
          \/ forall store,
               run_cell_attrs (notebook_imports notebook) (snd c) store
               = store)
       (code_cells notebook)
  /\ cells_calling notebook ["holoviews"; "operation"; "decimate"]
     = [8%nat]
  /\ cells_calling notebook
       ["holoviews"; "operation"; "datashader"; "dynspread"]
     = [13; 15; 17; 19; 25; 30; 35]%nat.
Proof.
  split; [vm_compute; reflexivity|].
  split; [vm_compute; reflexivity|].
  split; [|split; vm_compute; reflexivity].
  unfold code_cells, notebook. cbn [code_cells_from].
  apply Forall_cons; [left; reflexivity|].
  repeat (apply Forall_cons; [right; intros store; reflexivity|]).
  apply Forall_nil.
Qed.

(** The part of C6 that the cells themselves decide.  The notebook
    imports from numpy, HoloViews, Datashader and pandas, and from none
    of the modules that reach files or sockets; none of its calls is to a
    function that reads or writes a file or a stream; no cell has a
    [with] block.  The calls are exactly those listed.  What the imported
    libraries do to the file system when they are loaded or render is not
    in the cells and is not stated here. *)
Theorem no_file_or_stream_access :
  imported_packages notebook = ["numpy"; "holoviews"; "datashader"; "pandas"]
  /\ filter (fun pkg => mem pkg io_modules) (imported_packages notebook) = []
  /\ filter is_io_call (resolved_calls notebook (all_stmts notebook)) = []
  /\ existsb stmt_uses_with (all_stmts notebook) = false
  /\ resolved_calls notebook (all_stmts notebook)
     = [ ["holoviews"; "extension"]; ["()"; "cumsum"];
         ["numpy"; "convolve"]; ["numpy"; "random"; "normal"];
         ["numpy"; "ones"]; ["numpy"; "sin"]; ["numpy"; "array"];
         ["range"]; ["numpy"; "column_stack"];
         ["numpy"; "random"; "randn"]; ["numpy"; "dot"]; ["float"];
         ["numpy"; "linspace"]; ["numpy"; "random"; "standard_normal"];
         ["numpy"; "cumsum"]; ["numpy"; "sqrt"]; ["numpy"; "exp"];
         ["numpy"; "random"; "seed"]; ["holoviews"; "Points"];
         ["numpy"; "random"; "multivariate_normal"];
         ["holoviews"; "Path"]; ["random_walk"];
         ["holoviews"; "operation"; "decimate"];
         ["holoviews"; "operation"; "datashader"; "datashade"];
         ["()"; "hist"];
         ["holoviews"; "operation"; "datashader"; "rasterize"];
         ["holoviews"; "operation"; "datashader"; "shade"];
         ["holoviews"; "operation"; "datashader"; "dynspread"];
         ["random_cov"]; ["rand_gauss2d"]; ["holoviews"; "Curve"];
         ["time_series"]; ["numpy"; "random"; "rand"];
         ["holoviews"; "NdOverlay"]; ["datashader"; "count_cat"];
         ["()"; "opts"]; ["holoviews"; "opts"; "RGB"]; ["list"];
         ["enumerate"]; ["str"]; ["pandas"; "date_range"]; ["len"];
         ["holoviews"; "operation"; "timeseries"; "rolling"];
         ["holoviews"; "operation"; "timeseries"; "rolling_outlier_std"];
         ["holoviews"; "opts"; "Scatter"]; ["holoviews"; "QuadMesh"];
         ["holoviews"; "util"; "Dynamic"];
         ["holoviews"; "opts"; "QuadMesh"]; ["holoviews"; "output"];
         ["holoviews"; "opts"; "defaults"]; ["holoviews"; "opts"; "Image"];
         ["holoviews"; "opts"; "Layout"]; ["int"]; ["numpy"; "meshgrid"];
         ["numpy"; "cos"]; ["dict"];
         ["holoviews"; "TriMesh"; "from_vertices"]; ["()"; "cols"];
         ["datashader"; "mean"]; ["elemtype"]; ["holoviews"; "Image"];
         ["holoviews"; "Graph"]; ["numpy"; "zeros"]; ["numpy"; "arange"];
         ["holoviews"; "operation"; "contours"]; ["holoviews"; "RGB"];
         ["numpy"; "dstack"]; ["holoviews"; "HSV"]; ["holoviews"; "Layout"];
         ["e"; "relabel"]; ["holoviews"; "HoloMap"];
         ["holoviews"; "Overlay"]; ["curves"; "values"];
         ["holoviews"; "GridSpace"]; ["holoviews"; "NdLayout"] ].
Proof. repeat split; vm_compute; reflexivity. Qed.

End Cells.

(* ================================================================= *)
(** * Failures are not caught *)

Section Failures.
Context {rng : Type} `{G : Generator rng}.

Lemma random_walk_no_steps (f : Z) (st : rng) :
  random_walk 0 f st = Raise ValueError.
Proof.
  unfold random_walk.
  destruct (np_random_normal_ok 0 0.1 0 st) as (a1 & s1 & E1 & L1); [lia|].
  rewrite (bind_ok _ _ _ _ _ E1).
  destruct a1; [|discriminate].
  unfold np_ones. destruct (f <? 0).
  - reflexivity.
  - reflexivity.
Qed.

Lemma random_walk_no_filter (n : Z) (st : rng) :
  random_walk n 0 st = Raise ValueError.
Proof.
  unfold random_walk.
  destruct (Z.ltb_spec n 0) as [Hn|Hn].
  - apply bind_raise. now apply np_random_normal_negative.
  - destruct (np_random_normal_ok 0 0.1 n st) as (a1 & s1 & E1 & L1); [lia|].
    rewrite (bind_ok _ _ _ _ _ E1).
    unfold bind, lift. simpl. now rewrite np_convolve_empty_r.
Qed.

Lemma time_series_no_samples (T mu sigma S0 : R) (st : rng) :
  time_series T 0 mu sigma S0 st = Raise ZeroDivisionError.
Proof. reflexivity. Qed.

Lemma time_series_negative_samples (T mu sigma S0 : R) (st : rng) :
  time_series T (-1) mu sigma S0 st = Raise ValueError.
Proof. reflexivity. Qed.

(** C5. No statement of any cell, and no statement of any function
    body, is a [try], a [raise], an [assert] or an [if], and no
    expression is conditional.  What numpy raises inside a helper
    reaches the caller: [random_walk] with no steps or with an empty
    filter raises [ValueError], [time_series] with [N = 0] raises
    [ZeroDivisionError] and with a negative [N] raises [ValueError]. *)
Theorem no_error_handling :
  existsb Analysis.stmt_handles_errors
    (Analysis.all_stmts Notebook.notebook) = false
  /\ (forall (f : Z) (st : rng), random_walk 0 f st = Raise ValueError)
  /\ (forall (n : Z) (st : rng), random_walk n 0 st = Raise ValueError)
  /\ (forall (T mu sigma S0 : R) (st : rng),
        time_series T 0 mu sigma S0 st = Raise ZeroDivisionError)
  /\ (forall (T mu sigma S0 : R) (st : rng),
        time_series T (-1) mu sigma S0 st = Raise ValueError).
Proof.
  split; [vm_compute; reflexivity|].
  split; [exact random_walk_no_steps|].
  split; [exact random_walk_no_filter|].
  split; [exact time_series_no_samples | exact time_series_negative_samples].
Qed.

End Failures.

(* ================================================================= *)
(** * The datasets do not depend on where the generator starts *)

Lemma rows_of_shape h w (flat : list pyfloat) :
  length flat = (h * w)%nat ->
  Forall (fun row => length row = w) (rows_of h w flat).
Proof.
  revert flat. induction h as [|h IH]; intros flat L; simpl.
  - constructor.
  - constructor.
    + rewrite length_firstn. simpl in L. lia.
    + apply IH. rewrite length_skipn. simpl in L. lia.
Qed.

Lemma np_dot_ok (a b : ndarray2) :
  Forall (fun row => length row = length b) a ->
  exists x, np_dot a b = Ok x.
Proof.
  intros H. unfold np_dot.
  replace (forallb (fun row => (length row =? length b)%nat) a) with true.
  - eexists. reflexivity.
  - symmetry. apply forallb_forall. intros row Hin.
    apply Nat.eqb_eq. revert row Hin. now apply Forall_forall.
Qed.

Lemma is_square_length c d : is_square c d = true -> length c = d.
Proof.
  unfold is_square. intros H. apply andb_prop in H.
  now apply Nat.eqb_eq.
Qed.

Lemma np_zeros_ok n : 0 <= n -> exists z, np_zeros n = Ok z.
Proof.
  intros H. unfold np_zeros.
  destruct (Z.ltb_spec n 0); [lia|]. eexists. reflexivity.
Qed.

Section Reproducible.
Context {rng : Type} `{G : Generator rng}.

Lemma bind_seed {A} (k : Z) (body : unit -> M rng A) (st : rng) :
  bind (np_random_seed k) body st = body tt (seed_state k).
Proof. reflexivity. Qed.

Lemma for_each_ok {A B} (body : A -> M rng B) (l : list A) :
  (forall a st, exists b st', body a st = Ok (b, st')) ->
  forall st, exists bs st', for_each body l st = Ok (bs, st').
Proof.
  intros Hbody. induction l as [|a rest IH]; intros st; simpl.
  - do 2 eexists. reflexivity.
  - destruct (Hbody a st) as (b & s1 & E1).
    rewrite (bind_ok _ _ _ _ _ E1).
    destruct (IH s1) as (bs & s2 & E2).
    rewrite (bind_ok _ _ _ _ _ E2).
    do 2 eexists. reflexivity.
Qed.

Lemma np_random_multivariate_normal_ok mean cov size (st : rng) :
  is_square cov (length mean) = true -> 0 <= size ->
  exists x st', np_random_multivariate_normal mean cov size st = Ok (x, st').
Proof.
  intros Hsq Hsize. unfold np_random_multivariate_normal.
  rewrite Hsq. destruct (Z.ltb_spec size 0); [lia|]. simpl negb. cbv iota.
  simpl orb. cbv iota.
  pose proof (gauss_draws_length (Z.to_nat size * length mean) st) as L.
  destruct (gauss_draws (Z.to_nat size * length mean) st) as [zs st'].
  simpl in L.
  destruct (np_dot_ok
              (rows_of (Z.to_nat size) (length mean) (map Fin zs))
              (cov_factor cov)) as (x & Ex).
  - rewrite (is_square_length _ _ (cov_factor_square _ _ Hsq)).
    apply rows_of_shape. now rewrite length_map.
  - rewrite Ex. do 2 eexists. reflexivity.
Qed.

Lemma np_random_randn_ok d0 d1 (st : rng) :
  0 <= d0 -> 0 <= d1 ->
  exists a st', np_random_randn d0 d1 st = Ok (a, st').
Proof.
  intros H0 H1. unfold np_random_randn.
  destruct (Z.ltb_spec d0 0); [lia|].
  destruct (Z.ltb_spec d1 0); [lia|]. simpl orb. cbv iota.
  destruct (gauss_draws (Z.to_nat d0 * Z.to_nat d1) st) as [zs st'].
  do 2 eexists. reflexivity.
Qed.

Lemma random_cov_square (st : rng) :
  exists m st', random_cov st = Ok (m, st') /\ is_square m 2 = true.
Proof.
  unfold random_cov, bind, np_random_randn. simpl.
  destruct (next_gauss st) as [a s1].
  destruct (next_gauss s1) as [b s2].
  destruct (next_gauss s2) as [c s3].
  destruct (next_gauss s3) as [d s4].
  simpl. do 2 eexists. split; reflexivity.
Qed.

Lemma rand_gauss2d_ok (st : rng) :
  exists x st', rand_gauss2d st = Ok (x, st').
Proof.
  unfold rand_gauss2d, np_random_randn1.
  destruct (np_random_standard_normal_ok 2 st) as (zs & s1 & E1 & L1); [lia|].
  rewrite (bind_ok _ _ _ _ _ E1).
  destruct (random_cov_square s1) as (cov & s2 & E2 & Sq).
  rewrite (bind_ok _ _ _ _ _ E2).
  destruct (np_random_multivariate_normal_ok (map Fin zs) cov 100000 s2)
    as (x & s3 & E3); [|lia|].
  - rewrite length_map, L1. exact Sq.
  - rewrite (bind_ok _ _ _ _ _ E3). do 2 eexists. reflexivity.
Qed.

Lemma time_series_ok T N mu sigma S0 (st : rng) :
  1 <= N -> exists S st', time_series T N mu sigma S0 st = Ok (S, st').
Proof.
  intros HN.
  destruct (time_series_steps T N mu sigma S0 st HN)
    as (t & zs & st' & _ & _ & _ & E).
  do 2 eexists. exact E.
Qed.

Lemma cell_4_data_ok :
  exists d st', forall st : rng, cell_4_data st = Ok (d, st').
Proof.
  destruct (np_random_multivariate_normal_ok [Fin 0; Fin 0]
              [[Fin 0.1; Fin 0.1]; [Fin 0.1; Fin 1.0]] 1000 (seed_state 1))
    as (points & s1 & E1); [reflexivity | lia |].
  destruct (random_walk_returns 2000 30 s1) as (walk & s2 & E2 & _);
    [lia | lia |].
  exists (points, [walk]), s2. intros st.
  unfold cell_4_data. rewrite bind_seed.
  unfold points_sample. rewrite (bind_ok _ _ _ _ _ E1).
  rewrite (bind_ok _ _ _ _ _ E2). reflexivity.
Qed.

Lemma cell_6_data_ok :
  exists d st', forall st : rng, cell_6_data st = Ok (d, st').
Proof.
  destruct (np_random_multivariate_normal_ok [Fin 0; Fin 0]
              [[Fin 0.1; Fin 0.1]; [Fin 0.1; Fin 1.0]] 1000000 (seed_state 1))
    as (points & s1 & E1); [reflexivity | lia |].
  destruct (for_each_ok
              (fun _ : Z => walk <- random_walk_default 100000 ;;
                            ret (map2d (fmul (Fin 0.15)) walk))
              (py_range 10)) with (st := s1) as (paths & s2 & E2).
  { intros _ st. unfold random_walk_default.
    destruct (random_walk_returns 100000 5000 st) as (walk & s & E & _);
      [lia | lia |].
    rewrite (bind_ok _ _ _ _ _ E). do 2 eexists. reflexivity. }
  exists (points, paths), s2. intros st.
  unfold cell_6_data. rewrite bind_seed.
  unfold points_sample. rewrite (bind_ok _ _ _ _ _ E1).
  rewrite (bind_ok _ _ _ _ _ E2). reflexivity.
Qed.

Lemma cell_17_data_ok :
  exists d st', forall st : rng, cell_17_data st = Ok (d, st').
Proof.
  destruct (for_each_ok (fun _ : Z => rand_gauss2d) (py_range 8))
    with (st := seed_state 3) as (gs & s1 & E1).
  { intros _ st. apply rand_gauss2d_ok. }
  destruct (for_each_ok
              (fun _ : Z => u <- np_random_rand ;;
                            time_series 1 10000 0.1 0.1 (200 + u))
              (py_range 8)) with (st := s1) as (ls & s2 & E2).
  { intros _ st. unfold bind at 1, np_random_rand.
    destruct (next_double st) as [u s]. apply time_series_ok. lia. }
  exists (gs, ls), s2. intros st.
  unfold cell_17_data. rewrite bind_seed. cbv zeta.
  rewrite (bind_ok _ _ _ _ _ E1).
  rewrite (bind_ok _ _ _ _ _ E2). reflexivity.
Qed.

Lemma cell_23_data_ok (st : rng) :
  exists d st', cell_23_data st = Ok (d, st').
Proof.
  unfold cell_23_data. cbv zeta.
  destruct (time_series_ok 1
              (len (pd_date_range_daily (2014, 1, 1) (2016, 1, 1)))
              0.1 1 20 st) as (S & s & E).
  { vm_compute. discriminate. }
  rewrite (bind_ok _ _ _ _ _ E). do 2 eexists. reflexivity.
Qed.

Lemma cell_30_data_ok :
  exists d st', forall st : rng, cell_30_data st = Ok (d, st').
Proof.
  destruct (for_each_ok
              (fun i : Z => a <- lift (py_truediv (IZR (10 * i)) 100) ;;
                            a' <- lift (py_truediv (IZR (10 * i)) 100) ;;
                            ret (a, fsin a'))
              (py_range 100)) with (st := seed_state 12) as (ps & s1 & E1).
  { intros i st. do 2 eexists. reflexivity. }
  destruct (np_linspace_ok 0 5 (Z.sqrt 100)) as (x & Ex & _ & _);
    [apply Z.sqrt_nonneg|].
  destruct (np_random_randn_ok 100 3 s1) as (vs & s2 & E2); [lia | lia |].
  destruct (np_zeros_ok 100) as (zs & Ez); [lia|].
  eexists. exists s2. intros st.
  unfold cell_30_data. rewrite bind_seed. cbv zeta.
  rewrite (bind_ok _ _ _ _ _ E1).
  rewrite (bind_ok _ _ _ _ _ (lift_ok _ _ s1 Ex)).
  unfold np_meshgrid.
  rewrite (bind_ok _ _ _ _ _ E2).
  rewrite (bind_ok _ _ _ _ _ (lift_ok _ _ s2 Ez)).
  reflexivity.
Qed.

Lemma notebook_datasets_ok :
  exists d st', forall st : rng, notebook_datasets st = Ok (d, st').
Proof.
  destruct cell_4_data_ok as (d4 & s4 & E4).
  destruct cell_6_data_ok as (d6 & s6 & E6).
  destruct cell_17_data_ok as (d17 & s17 & E17).
  destruct (cell_23_data_ok s17) as (d23 & s23 & E23).
  destruct cell_30_data_ok as (d30 & s30 & E30).
  eexists. exists s30. intros st. unfold notebook_datasets.
  rewrite (bind_ok _ _ _ _ _ (E4 st)).
  rewrite (bind_ok _ _ _ _ _ (E6 s4)).
  rewrite (bind_ok _ _ _ _ _ (E17 s6)).
  rewrite (bind_ok _ _ _ _ _ E23).
  rewrite (bind_ok _ _ _ _ _ (E30 s23)).
  reflexivity.
Qed.

(** C7. Every dataset is computed from numpy's generator after a call
    to [np.random.seed] and from constants.  Run top to bottom, the
    cells build all of them without raising, and two runs build equal
    datasets and leave the generator in the same state, whatever states
    the generator started from, equal or not. *)
Theorem notebook_datasets_reproducible (st1 st2 : rng) :
  exists d st',
    notebook_datasets st1 = Ok (d, st')
    /\ notebook_datasets st2 = Ok (d, st').
Proof.
  destruct notebook_datasets_ok as (d & st' & E).
  exists d, st'. split; apply E.
Qed.

End Reproducible.

(* ================================================================= *)
(** * More on the helpers *)

Section Draws.
Context {rng : Type} `{G : Generator rng}.

Lemma gauss_draws_app (a b : nat) (st : rng) :
  gauss_draws (a + b) st
  = (fst (gauss_draws a st)
       ++ fst (gauss_draws b (snd (gauss_draws a st))),
     snd (gauss_draws b (snd (gauss_draws a st)))).
Proof.
  revert st. induction a as [|a IH]; intros st; simpl.
  - now destruct (gauss_draws b st).
  - destruct (next_gauss st) as [x s1]. rewrite IH.
    destruct (gauss_draws a s1) as [xs s2]. simpl.
    reflexivity.
Qed.

Lemma gauss_draws_state_app (a b : nat) (st : rng) :
  snd (gauss_draws b (snd (gauss_draws a st)))
  = snd (gauss_draws (a + b) st).
Proof. now rewrite gauss_draws_app. Qed.

Lemma np_random_normal_draws loc scale size (st : rng) :
  0 <= size ->
  exists a,
    np_random_normal loc scale size st
    = Ok (a, snd (gauss_draws (Z.to_nat size) st))
    /\ length a = Z.to_nat size.
Proof.
  intros H. unfold np_random_normal.
  destruct (Z.ltb_spec size 0); [lia|].
  pose proof (gauss_draws_length (Z.to_nat size) st) as L.
  destruct (gauss_draws (Z.to_nat size) st) as [zs st'].
  eexists. split; [reflexivity|]. now rewrite length_map.
Qed.

(** X1. [random_walk] raises [ValueError] whenever [n < 1] or [f < 1]:
    a negative size is refused by [np.random.normal] or [np.ones], and a
    zero one leaves [np.convolve] with an empty argument. *)
Theorem random_walk_rejects_small_sizes (n f : Z) (st : rng) :
  n < 1 \/ f < 1 -> random_walk n f st = Raise ValueError.
Proof.
  intros H.
  destruct (Z.ltb_spec n 0) as [Hn|Hn].
  { unfold random_walk. apply bind_raise.
    now apply np_random_normal_negative. }
  destruct (Z.eq_dec n 0) as [->|Hn0]; [apply random_walk_no_steps|].
  destruct (Z.eq_dec f 0) as [->|Hf0]; [apply random_walk_no_filter|].
  assert (Hf : f < 0) by lia.
  unfold random_walk.
  destruct (np_random_normal_ok 0 0.1 n st) as (a1 & s1 & E1 & _); [lia|].
  rewrite (bind_ok _ _ _ _ _ E1).
  apply bind_raise, lift_raise. unfold np_ones.
  destruct (Z.ltb_spec f 0); [reflexivity | lia].
Qed.

(** X2. A successful [random_walk n f] advances the generator by
    exactly [4 n + 2 f - 2] normal draws: [n] for each axis and
    [n - 1 + f] for the noise of each axis. *)
Theorem random_walk_draw_count (n f : Z) (st : rng) :
  1 <= n -> 1 <= f ->
  exists arr,
    random_walk n f st
    = Ok (arr, snd (gauss_draws (Z.to_nat (4 * n + 2 * f - 2)) st)).
Proof.
  intros Hn Hf. unfold random_walk.
  destruct (np_random_normal_draws 0 0.1 n st) as (a1 & E1 & L1); [lia|].
  rewrite (bind_ok _ _ _ _ _ E1).
  set (s1 := snd (gauss_draws (Z.to_nat n) st)).
  rewrite (bind_ok _ _ _ _ _ (lift_ok _ _ s1 (np_ones_ok f ltac:(lia)))).
  destruct (smoothed_axis_ok n f a1 Hn Hf L1) as (c1 & C1 & LC1).
  rewrite (bind_ok _ _ _ _ _ (lift_ok _ _ s1 C1)).
  destruct (np_random_normal_draws 0 0.1 n s1) as (a2 & E2 & L2); [lia|].
  rewrite (bind_ok _ _ _ _ _ E2).
  set (s2 := snd (gauss_draws (Z.to_nat n) s1)).
  rewrite (bind_ok _ _ _ _ _ (lift_ok _ _ s2 (np_ones_ok f ltac:(lia)))).
  destruct (smoothed_axis_ok n f a2 Hn Hf L2) as (c2 & C2 & LC2).
  rewrite (bind_ok _ _ _ _ _ (lift_ok _ _ s2 C2)).
  cbv zeta.
  set (wobble := scalar_mul (Fin 0.1) _).
  assert (LW : length wobble = length (np_cumsum c1)).
  { unfold wobble, scalar_mul, np_sin, np_array.
    rewrite !length_map, py_range_length, np_cumsum_length. congruence. }
  rewrite (bind_ok _ _ _ _ _ (lift_ok _ _ s2 (iadd_same_length _ _ LW))).
  destruct (np_random_normal_draws 0 0.005 (n - 1 + f) s2)
    as (e1 & E3 & L3); [lia|].
  rewrite (bind_ok _ _ _ _ _ E3).
  set (s3 := snd (gauss_draws (Z.to_nat (n - 1 + f)) s2)).
  set (xs1 := zip_with fadd (np_cumsum c1) wobble).
  assert (LX1 : length xs1 = Z.to_nat (n - 1 + f)).
  { unfold xs1. rewrite zip_with_length by congruence.
    now rewrite np_cumsum_length. }
  rewrite (bind_ok _ _ _ _ _
             (lift_ok _ _ s3 (iadd_same_length xs1 e1 ltac:(congruence)))).
  destruct (np_random_normal_draws 0 0.005 (n - 1 + f) s3)
    as (e2 & E4 & L4); [lia|].
  rewrite (bind_ok _ _ _ _ _ E4).
  set (s4 := snd (gauss_draws (Z.to_nat (n - 1 + f)) s3)).
  assert (LY : length e2 = length (np_cumsum c2)).
  { rewrite np_cumsum_length. congruence. }
  rewrite (bind_ok _ _ _ _ _ (lift_ok _ _ s4 (iadd_same_length _ _ LY))).
  set (xs2 := zip_with fadd xs1 e1).
  set (ys2 := zip_with fadd (np_cumsum c2) e2).
  assert (LX2 : length xs2 = Z.to_nat (n - 1 + f)).
  { unfold xs2. rewrite zip_with_length; congruence. }
  assert (LY2 : length ys2 = Z.to_nat (n - 1 + f)).
  { unfold ys2. rewrite zip_with_length by congruence.
    now rewrite np_cumsum_length. }
  eexists.
  erewrite lift_ok; [|apply np_column_stack_pair; congruence].
  f_equal. f_equal.
  unfold s4, s3, s2, s1. rewrite !gauss_draws_state_app.
  replace (Z.to_nat (4 * n + 2 * f - 2))
    with (Z.to_nat n
          + (Z.to_nat n + (Z.to_nat (n - 1 + f) + Z.to_nat (n - 1 + f))))%nat
    by lia.
  reflexivity.
Qed.




End Draws.

Section Series.
Context {rng : Type} `{G : Generator rng}.

Lemma np_random_standard_normal_draws size (st : rng) :
  0 <= size ->
  np_random_standard_normal size st
  = Ok (map Fin (fst (gauss_draws (Z.to_nat size) st)),
        snd (gauss_draws (Z.to_nat size) st)).
Proof.
  intros H. unfold np_random_standard_normal.
  destruct (Z.ltb_spec size 0); [lia|].
  now destruct (gauss_draws (Z.to_nat size) st).
Qed.

(** The exponent [X] of [time_series], from the time grid and the
    draws. *)
Lemma time_series_exponent T N mu sigma (st : rng) :
  1 <= N ->
  exists t,
    np_linspace 0 T N = Ok t
    /\ length t = Z.to_nat N
    /\ Forall is_finite t
    /\ forall S0,
         time_series T N mu sigma S0 st
         = Ok (scalar_mul (Fin S0)
                 (np_exp
                    (zip_with fadd
                       (scalar_mul (Fin (mu - 0.5 * sigma ^ 2)) t)
                       (scalar_mul (Fin sigma)
                          (mul_scalar
                             (np_cumsum
                                (map Fin
                                   (fst (gauss_draws (Z.to_nat N) st))))
                             (fsqrt (Fin (T / IZR N))))))),
               snd (gauss_draws (Z.to_nat N) st)).
Proof.
  intros HN.
  destruct (np_linspace_ok 0 T N) as (t & Et & Lt & Ft); [lia|].
  exists t. repeat (split; [assumption|]). intros S0.
  unfold time_series, py_truediv.
  destruct (Z.eqb_spec N 0); [lia|].
  unfold bind at 1. simpl lift at 1. cbv iota beta.
  rewrite (bind_ok _ _ _ _ _ (lift_ok _ _ st Et)).
  rewrite (bind_ok _ _ _ _ _
             (np_random_standard_normal_draws N st ltac:(lia))).
  cbv zeta.
  erewrite bind_ok; [reflexivity|].
  apply lift_ok, np_add_same_length.
  unfold scalar_mul, mul_scalar.
  rewrite !length_map, np_cumsum_length, length_map, gauss_draws_length.
  congruence.
Qed.




Lemma random_cov_value (st : rng) :
  exists v1 c v2,
    random_cov st
    = Ok ([[Fin v1; Fin c]; [Fin c; Fin v2]], snd (gauss_draws 4 st))
    /\ (0 <= v1)%R /\ (0 <= v2)%R /\ (c * c <= v1 * v2)%R.
Proof.
  unfold random_cov, bind, np_random_randn. simpl.
  destruct (next_gauss st) as [a s1].
  destruct (next_gauss s1) as [b s2].
  destruct (next_gauss s2) as [c s3].
  destruct (next_gauss s3) as [d s4].
  simpl. unfold fsum. simpl.
  exists (0 + a * a + b * b)%R, (0 + a * c + b * d)%R,
    (0 + c * c + d * d)%R.
  split; [|split; [|split]].
  - replace (0 + c * a + d * b)%R with (0 + a * c + b * d)%R by ring.
    reflexivity.
  - nra.
  - nra.
  - pose proof (pow2_ge_0 (a * d - b * c)). nra.
Qed.

(** X7. What [random_cov] returns is a covariance matrix: the two
    variances on the diagonal are non-negative and the covariance off
    it is bounded by them, [c^2 <= v1 * v2].  The call takes exactly four
    normal draws. *)
Theorem random_cov_is_covariance (st : rng) :
  exists v1 c v2,
    random_cov st
    = Ok ([[Fin v1; Fin c]; [Fin c; Fin v2]], snd (gauss_draws 4 st))
    /\ (0 <= v1)%R /\ (0 <= v2)%R /\ (c * c <= v1 * v2)%R.
Proof. apply random_cov_value. Qed.

End Series.

(* ================================================================= *)
(** * More on the sampled point clouds *)

Lemma rows_of_length h w (flat : list pyfloat) :
  length (rows_of h w flat) = h.
Proof.
  revert flat. induction h as [|h IH]; intros flat; simpl;
    [reflexivity | now rewrite IH].
Qed.

Lemma rows_of_firstn k k' w (flat : list pyfloat) :
  (k <= k')%nat -> firstn k (rows_of k' w flat) = rows_of k w flat.
Proof.
  revert k' flat. induction k as [|k IH]; intros k' flat H.
  - reflexivity.
  - destruct k' as [|k']; [lia|]. simpl. f_equal. apply IH. lia.
Qed.

Lemma rows_of_app k w (l1 l2 : list pyfloat) :
  length l1 = (k * w)%nat -> rows_of k w (l1 ++ l2) = rows_of k w l1.
Proof.
  revert l1. induction k as [|k IH]; intros l1 L; simpl.
  - reflexivity.
  - simpl in L. f_equal.
    + rewrite firstn_app.
      replace (w - length l1)%nat with 0%nat by lia.
      simpl. now rewrite app_nil_r.
    + rewrite skipn_app.
      replace (w - length l1)%nat with 0%nat by lia.
      simpl. apply IH. rewrite length_skipn. lia.
Qed.

Lemma np_dot_eq (a b : ndarray2) :
  Forall (fun row => length row = length b) a ->
  np_dot a b
  = Ok (map (fun row => map (fun col => fsum (zip_with fmul row col))
                          (transpose b)) a).
Proof.
  intros H. unfold np_dot.
  replace (forallb (fun row => (length row =? length b)%nat) a) with true;
    [reflexivity|].
  symmetry. apply forallb_forall. intros row Hin.
  apply Nat.eqb_eq. revert row Hin. now apply Forall_forall.
Qed.

Lemma is_square_width c d :
  is_square c d = true -> length (transpose c) = d.
Proof.
  unfold is_square, transpose. intros H. apply andb_prop in H.
  destruct H as [L R]. apply Nat.eqb_eq in L.
  rewrite length_map, length_seq.
  destruct c as [|row c]; simpl in *; [exact L|].
  apply andb_prop in R. destruct R as [R _]. now apply Nat.eqb_eq.
Qed.

Lemma zip_with_length_min {A B C} (g : A -> B -> C) l1 l2 :
  length (zip_with g l1 l2) = Nat.min (length l1) (length l2).
Proof.
  revert l2. induction l1 as [|x l1 IH]; intros [|y l2]; simpl;
    try reflexivity.
  now rewrite IH.
Qed.

Lemma map2d_shape g (a : ndarray2) h w :
  has_shape a h w -> has_shape (map2d g a) h w.
Proof.
  intros [L R]. split.
  - unfold len, map2d in *. now rewrite length_map.
  - unfold map2d. apply Forall_forall. intros row Hin.
    apply in_map_iff in Hin. destruct Hin as (r & <- & Hin).
    unfold len. rewrite length_map.
    revert r Hin. now apply Forall_forall.
Qed.

Section Clouds.
Context {rng : Type} `{G : Generator rng}.

(** The value of [multivariate_normal], when its arguments fit. *)
Lemma np_random_multivariate_normal_value mean cov size (st : rng) :
  is_square cov (length mean) = true -> 0 <= size ->
  np_random_multivariate_normal mean cov size st
  = Ok (map (fun row => zip_with fadd row mean)
          (map (fun row => map (fun col => fsum (zip_with fmul row col))
                             (transpose (cov_factor cov)))
             (rows_of (Z.to_nat size) (length mean)
                (map Fin
                   (fst (gauss_draws (Z.to_nat size * length mean) st))))),
        snd (gauss_draws (Z.to_nat size * length mean) st)).
Proof.
  intros Hsq Hsize. unfold np_random_multivariate_normal.
  rewrite Hsq. destruct (Z.ltb_spec size 0); [lia|]. simpl negb. cbv iota.
  simpl orb. cbv iota.
  pose proof (gauss_draws_length (Z.to_nat size * length mean) st) as L.
  destruct (gauss_draws (Z.to_nat size * length mean) st) as [zs st'].
  simpl in L. simpl fst. simpl snd.
  rewrite np_dot_eq; [reflexivity|].
  rewrite (is_square_length _ _ (cov_factor_square _ _ Hsq)).
  apply rows_of_shape. now rewrite length_map.
Qed.

Lemma np_random_multivariate_normal_shape mean cov size (st : rng) :
  is_square cov (length mean) = true -> 0 <= size ->
  exists x,
    np_random_multivariate_normal mean cov size st
    = Ok (x, snd (gauss_draws (Z.to_nat size * length mean) st))
    /\ has_shape x size (len mean).
Proof.
  intros Hsq Hsize. eexists. split.
  - now apply np_random_multivariate_normal_value.
  - split.
    + unfold len. rewrite !length_map, rows_of_length. lia.
    + apply Forall_forall. intros row Hin.
      apply in_map_iff in Hin. destruct Hin as (r & <- & Hin).
      apply in_map_iff in Hin. destruct Hin as (r0 & <- & _).
      unfold len. rewrite zip_with_length_min, length_map.
      rewrite (is_square_width _ _ (cov_factor_square _ _ Hsq)).
      now rewrite Nat.min_id.
Qed.

Lemma rand_gauss2d_returns (st : rng) :
  exists x,
    rand_gauss2d st = Ok (x, snd (gauss_draws (Z.to_nat 200006) st))
    /\ has_shape x 100000 2.
Proof.
  unfold rand_gauss2d, np_random_randn1.
  rewrite (bind_ok _ _ _ _ _
             (np_random_standard_normal_draws 2 st ltac:(lia))).
  set (s1 := snd (gauss_draws (Z.to_nat 2) st)).
  set (mean := map Fin (fst (gauss_draws (Z.to_nat 2) st))).
  assert (Lm : length mean = 2%nat).
  { unfold mean. now rewrite length_map, gauss_draws_length. }
  destruct (random_cov_value s1) as (v1 & c & v2 & E2 & _).
  rewrite (bind_ok _ _ _ _ _ E2).
  set (s2 := snd (gauss_draws 4 s1)).
  destruct (np_random_multivariate_normal_shape mean
              [[Fin v1; Fin c]; [Fin c; Fin v2]] 100000 s2)
    as (x & E3 & Sx); [now rewrite Lm | lia |].
  rewrite (bind_ok _ _ _ _ _ E3).
  eexists. split.
  - unfold ret. f_equal. f_equal.
    unfold s2, s1. rewrite !gauss_draws_state_app, Lm.
    replace (Z.to_nat 200006)
      with (Z.to_nat 2 + (4 + Z.to_nat 100000 * 2))%nat by lia.
    reflexivity.
  - apply map2d_shape. unfold len in Sx. rewrite Lm in Sx. exact Sx.
Qed.

(** X8. [rand_gauss2d] never raises: it returns an array of shape
    [(100000, 2)] and advances the generator by 200006 normal draws, two
    for the mean, four for the covariance and two per point. *)
Theorem rand_gauss2d_shape (st : rng) :
  exists x,
    rand_gauss2d st = Ok (x, snd (gauss_draws (Z.to_nat 200006) st))
    /\ has_shape x 100000 2.
Proof. apply rand_gauss2d_returns. Qed.

(** X9. Sampling more points from the same generator state extends the
    sample: for [0 <= k <= k'], the first [k] rows of the [k']-point
    cloud are the [k]-point cloud.  So the thousand points of the first
    plot are the first thousand of the million plotted later, both cells
    seeding with 1. *)
Theorem points_sample_prefix (k k' : Z) (st : rng) :
  0 <= k <= k' ->
  exists p p' s s',
    points_sample k st = Ok (p, s)
    /\ points_sample k' st = Ok (p', s')
    /\ firstn (Z.to_nat k) p' = p.
Proof.
  intros H. unfold points_sample.
  do 4 eexists. split; [|split].
  - apply np_random_multivariate_normal_value; [reflexivity | lia].
  - apply np_random_multivariate_normal_value; [reflexivity | lia].
  - rewrite !firstn_map.
    rewrite rows_of_firstn by lia.
    change (length [Fin 0; Fin 0]) with 2%nat.
    replace (Z.to_nat k' * 2)%nat
      with (Z.to_nat k * 2 + (Z.to_nat k' - Z.to_nat k) * 2)%nat by lia.
    rewrite gauss_draws_app. simpl fst. rewrite map_app.
    rewrite rows_of_app; [reflexivity|].
    now rewrite length_map, gauss_draws_length.
Qed.

End Clouds.

(* ================================================================= *)
(** * More on the cells that build data *)

Lemma zip_with_fadd_finite_rows (xs ys : ndarray2) :
  Forall (Forall is_finite) xs -> Forall (Forall is_finite) ys ->
  Forall (Forall is_finite) (zip2d fadd xs ys).
Proof.
  intros Hx. revert ys. induction Hx as [|x xs Hx0 Hxs IH]; intros ys Hy.
  - constructor.
  - destruct Hy as [|y ys Hy0 Hys]; [constructor|].
    unfold zip2d. simpl. constructor.
    + now apply zip_with_fadd_finite.
    + now apply IH.
Qed.

Lemma map2d_finite g (a : ndarray2) :
  (forall x, is_finite x -> is_finite (g x)) ->
  Forall (Forall is_finite) a -> Forall (Forall is_finite) (map2d g a).
Proof.
  intros Hg H. unfold map2d. induction H; simpl; constructor; auto.
  now apply map_finite.
Qed.

Lemma half_sine_in_unit_interval x :
  is_finite x ->
  unit_interval (fadd (fmul (Fin 0.5) (fsin x)) (Fin 0.5)).
Proof.
  destruct x as [r|]; [intros _|contradiction]. simpl.
  pose proof (SIN_bound r). lra.
Qed.

Lemma channel_in_unit_interval_rows (a b : R) (xs ys : ndarray2) :
  Forall (Forall is_finite) xs -> Forall (Forall is_finite) ys ->
  Forall (Forall unit_interval) (channel a b xs ys).
Proof.
  intros Hx Hy. unfold channel.
  set (arg := zip2d fadd _ _).
  assert (Harg : Forall (Forall is_finite) arg).
  { apply zip_with_fadd_finite_rows.
    - apply map2d_finite; [intros x H; now apply fmul_finite|].
      apply map2d_finite; [|exact Hx]. intros [r|] H; [exact I | exact H].
    - apply map2d_finite; [intros x H; now apply fmul_finite|].
      apply map2d_finite; [|exact Hy]. intros [r|] H; [exact I | exact H]. }
  unfold map2d. rewrite !map_map.
  apply Forall_forall. intros row Hin.
  apply in_map_iff in Hin. destruct Hin as (r & <- & Hin).
  rewrite !map_map. apply Forall_forall. intros y Hy'.
  apply in_map_iff in Hy'. destruct Hy' as (x & <- & Hxin).
  apply half_sine_in_unit_interval.
  assert (Hr : Forall is_finite r).
  { apply (proj1 (Forall_forall _ _) Harg). exact Hin. }
  apply (proj1 (Forall_forall _ _) Hr). exact Hxin.
Qed.

Lemma magnitude_finite m x : magnitude_at_most m x -> is_finite x.
Proof. destruct x; simpl; auto. Qed.

Lemma magnitude_finite_rows m (a : ndarray2) :
  Forall (Forall (magnitude_at_most m)) a -> Forall (Forall is_finite) a.
Proof.
  intros H. induction H as [|row a Hrow Ha IH]; constructor; [|exact IH].
  induction Hrow; constructor; eauto using magnitude_finite.
Qed.

(** X10. With coefficients and grid values of magnitude at most 1e100,
    so that the argument of the sine stays in the range of a double, a
    colour channel [0.5*np.sin(a*xs**2+b*ys**2)+0.5] has all its values
    between 0 and 1. *)
Theorem channel_in_unit_interval (a b : R) (xs ys : ndarray2) :
  (Rabs a <= 10 ^ 100)%R -> (Rabs b <= 10 ^ 100)%R ->
  Forall (Forall (magnitude_at_most (10 ^ 100))) xs ->
  Forall (Forall (magnitude_at_most (10 ^ 100))) ys ->
  Forall (Forall unit_interval) (channel a b xs ys).
Proof.
  intros _ _ Hx Hy.
  apply channel_in_unit_interval_rows;
    eapply magnitude_finite_rows; eassumption.
Qed.

Section DataCells.
Context {rng : Type} `{G : Generator rng}.

Lemma for_each_forall {A B} (P : B -> Prop) (body : A -> M rng B)
  (l : list A) :
  (forall a st, exists b st', body a st = Ok (b, st') /\ P b) ->
  forall st, exists bs st',
    for_each body l st = Ok (bs, st')
    /\ length bs = length l /\ Forall P bs.
Proof.
  intros Hbody. induction l as [|a rest IH]; intros st; simpl.
  - do 2 eexists. split; [reflexivity|]. split; [reflexivity|constructor].
  - destruct (Hbody a st) as (b & s1 & E1 & Pb).
    rewrite (bind_ok _ _ _ _ _ E1).
    destruct (IH s1) as (bs & s2 & E2 & L & F).
    rewrite (bind_ok _ _ _ _ _ E2).
    do 2 eexists. split; [reflexivity|]. split.
    + simpl. now rewrite L.
    + now constructor.
Qed.

Lemma time_series_values T N mu sigma S0 (st : rng) :
  1 <= N -> (0 <= T)%R -> (0 < S0)%R ->
  exists S st',
    time_series T N mu sigma S0 st = Ok (S, st')
    /\ len S = N /\ Forall fpositive S.
Proof.
  intros HN HT HS.
  destruct (time_series_exponent T N mu sigma st HN)
    as (t & _ & Lt & Ft & E).
  do 2 eexists. split; [apply E|]. split.
  - unfold len, scalar_mul, np_exp, mul_scalar.
    rewrite !length_map, zip_with_length; rewrite !length_map; [lia|].
    rewrite np_cumsum_length, length_map, gauss_draws_length. congruence.
  - apply geometric_positive; [exact HS|].
    assert (Hdt : (0 <= T / IZR N)%R).
    { apply Rle_mult_inv_pos; [exact HT|]. apply IZR_lt. lia. }
    unfold fsqrt. destruct (Rlt_dec (T / IZR N) 0) as [Hneg|_]; [lra|].
    apply zip_with_fadd_finite.
    + apply map_finite; [|exact Ft].
      intros x Hx. now apply fmul_finite.
    + apply map_finite; [intros x Hx; now apply fmul_finite|].
      apply map_finite; [intros x Hx; now apply fmul_finite|].
      apply cumsum_from_finite, Forall_finite_map_Fin.
Qed.

(** X11. The cell that scales the example up builds a cloud of shape
    [(1000000, 2)] and ten paths, each of shape [(104999, 2)]: a walk of
    100000 steps under the default filter of length 5000, scaled by
    0.15. *)
Theorem cell_6_shapes (st : rng) :
  exists points paths st',
    cell_6_data st = Ok ((points, paths), st')
    /\ has_shape points 1000000 2
    /\ len paths = 10
    /\ Forall (fun walk => has_shape walk 104999 2) paths.
Proof.
  unfold cell_6_data. rewrite bind_seed. unfold points_sample.
  destruct (np_random_multivariate_normal_shape [Fin 0; Fin 0]
              [[Fin 0.1; Fin 0.1]; [Fin 0.1; Fin 1.0]] 1000000 (seed_state 1))
    as (points & E1 & S1); [reflexivity | lia |].
  rewrite (bind_ok _ _ _ _ _ E1).
  destruct (for_each_forall (fun walk => has_shape walk 104999 2)
              (fun _ : Z => walk <- random_walk_default 100000 ;;
                            ret (map2d (fmul (Fin 0.15)) walk))
              (py_range 10)) with (st := snd (gauss_draws
                                              (Z.to_nat 1000000
                                               * length [Fin 0; Fin 0])
                                              (seed_state 1)))
    as (paths & s2 & E2 & L2 & F2).
  { intros _ s. unfold random_walk_default.
    destruct (random_walk_returns 100000 5000 s) as (walk & s' & E & Sw);
      [lia | lia |].
    rewrite (bind_ok _ _ _ _ _ E). do 2 eexists.
    split; [reflexivity|]. now apply map2d_shape. }
  rewrite (bind_ok _ _ _ _ _ E2).
  do 3 eexists. split; [reflexivity|].
  split; [exact S1|]. split; [|exact F2].
  unfold len. rewrite L2, py_range_length. reflexivity.
Qed.

(** X12. The cell of the categorical plots builds eight Gaussian
    clouds, each of shape [(100000, 2)], and eight series, each of 10000
    values. *)
Theorem cell_17_shapes (st : rng) :
  exists gaussians lines st',
    cell_17_data st = Ok ((gaussians, lines), st')
    /\ len gaussians = 8
    /\ Forall (fun cloud => has_shape cloud 100000 2) gaussians
    /\ len lines = 8
    /\ Forall (fun series => len series = 10000) lines.
Proof.
  unfold cell_17_data. rewrite bind_seed. cbv zeta.
  destruct (for_each_forall (fun cloud => has_shape cloud 100000 2)
              (fun _ : Z => rand_gauss2d) (py_range 8))
    with (st := seed_state 3) as (gs & s1 & E1 & L1 & F1).
  { intros _ s. destruct (rand_gauss2d_returns s) as (x & E & Sx).
    do 2 eexists. split; [exact E | exact Sx]. }
  rewrite (bind_ok _ _ _ _ _ E1).
  destruct (for_each_forall (fun series : ndarray => len series = 10000)
              (fun _ : Z => u <- np_random_rand ;;
                            time_series 1 10000 0.1 0.1 (200 + u))
              (py_range 8)) with (st := s1) as (ls & s2 & E2 & L2 & F2).
  { intros _ s. unfold bind at 1, np_random_rand.
    destruct (next_double s) as [u s'].
    destruct (time_series_exponent 1 10000 0.1 0.1 s' ltac:(lia))
      as (t & _ & Lt & _ & E).
    do 2 eexists. split; [apply E|].
    unfold len, scalar_mul, np_exp, mul_scalar.
    rewrite !length_map, zip_with_length; rewrite !length_map; [lia|].
    rewrite np_cumsum_length, length_map, gauss_draws_length. congruence. }
  rewrite (bind_ok _ _ _ _ _ E2).
  do 3 eexists. split; [reflexivity|].
  unfold len. rewrite L1, L2, !py_range_length.
  repeat split; assumption.
Qed.

(** X13. The time-series cell hands [hv.Curve] two columns of the same
    length: the 731 days from 2014-01-01 to 2016-01-01 and 731 values,
    one per day and all strictly positive, whatever state the generator
    is in. *)
Theorem cell_23_columns (st : rng) :
  exists days series st',
    cell_23_data st = Ok ((days, series), st')
    /\ len days = 731
    /\ len series = len days
    /\ Forall fpositive series.
Proof.
  unfold cell_23_data. cbv zeta.
  destruct (time_series_values 1
              (len (pd_date_range_daily (2014, 1, 1) (2016, 1, 1)))
              0.1 1 20 st) as (S & s & E & L & P).
  { vm_compute. discriminate. }
  { lra. }
  { lra. }
  rewrite (bind_ok _ _ _ _ _ E). do 3 eexists.
  split; [reflexivity|]. split; [reflexivity|]. split; assumption.
Qed.

End DataCells.

Section Seeding.
Import Py Notebook Analysis.
Local Open Scope string_scope.

(** X14. Of the code cells, five touch numpy's generator when they run.
    Four of them (cells 4, 6, 17 and 30) call [np.random.seed] before
    anything in them draws; the time-series cell (23) draws, through
    [time_series], without seeding, so its values follow from the state
    the cells before it left. *)
Theorem seeding_of_cells :
  flat_map (fun c => match seeds_before_sampling notebook (snd c) with
                     | Some seeded => [(fst c, seeded)]
                     | None => []
                     end) (code_cells notebook)
  = [(4, true); (6, true); (17, true); (23, false); (30, true)]%nat.
Proof. vm_compute. reflexivity. Qed.

End Seeding.

(* ================================================================= *)
(** * The arrays behind the element gallery *)

Lemma zip_with_rows_shape g (a b : ndarray2) h w :
  has_shape a h w -> has_shape b h w -> has_shape (zip2d g a b) h w.
Proof.
  intros [La Ra] [Lb Rb]. unfold zip2d, len in *. split; unfold len.
  - rewrite zip_with_length_min. lia.
  - clear La Lb. revert b Rb.
    induction Ra as [|x a Hx Ha IH]; intros b Rb; [constructor|].
    destruct Rb as [|y b Hy Hb]; simpl; [constructor|].
    constructor; [|now apply IH].
    cbv beta in *. rewrite zip_with_length_min. lia.
Qed.

Lemma np_meshgrid_shape (x y : ndarray) :
  has_shape (fst (np_meshgrid x y)) (len y) (len x)
  /\ has_shape (snd (np_meshgrid x y)) (len y) (len x).
Proof.
  unfold np_meshgrid, has_shape, len. simpl. rewrite !length_map.
  repeat split; try reflexivity.
  - apply Forall_forall. intros row Hin.
    apply in_map_iff in Hin. now destruct Hin as (_ & <- & _).
  - apply Forall_forall. intros row Hin.
    apply in_map_iff in Hin. destruct Hin as (yi & <- & _).
    now rewrite length_map.
Qed.

Lemma np_meshgrid_finite (x y : ndarray) :
  Forall is_finite x -> Forall is_finite y ->
  Forall (Forall is_finite) (fst (np_meshgrid x y))
  /\ Forall (Forall is_finite) (snd (np_meshgrid x y)).
Proof.
  intros Hx Hy. unfold np_meshgrid. simpl. split.
  - apply Forall_forall. intros row Hin.
    apply in_map_iff in Hin. now destruct Hin as (_ & <- & _).
  - apply Forall_forall. intros row Hin.
    apply in_map_iff in Hin. destruct Hin as (yi & <- & Hin).
    apply Forall_forall. intros v Hv.
    apply in_map_iff in Hv. destruct Hv as (_ & <- & _).
    apply (proj1 (Forall_forall _ _) Hy). exact Hin.
Qed.

Lemma channel_shape (a b : R) (xs ys : ndarray2) h w :
  has_shape xs h w -> has_shape ys h w -> has_shape (channel a b xs ys) h w.
Proof.
  intros Hx Hy. unfold channel.
  repeat apply map2d_shape.
  apply zip_with_rows_shape; repeat apply map2d_shape; assumption.
Qed.

Section Gallery.
Context {rng : Type} `{G : Generator rng}.

Lemma np_random_randn_shape d0 d1 (st : rng) :
  0 <= d0 -> 0 <= d1 ->
  exists a st', np_random_randn d0 d1 st = Ok (a, st') /\ has_shape a d0 d1.
Proof.
  intros H0 H1. unfold np_random_randn.
  destruct (Z.ltb_spec d0 0); [lia|].
  destruct (Z.ltb_spec d1 0); [lia|]. simpl orb. cbv iota.
  pose proof (gauss_draws_length (Z.to_nat d0 * Z.to_nat d1) st) as L.
  destruct (gauss_draws (Z.to_nat d0 * Z.to_nat d1) st) as [zs st'].
  simpl in L. do 2 eexists. split; [reflexivity|]. split.
  - unfold len. rewrite rows_of_length. lia.
  - pose proof (rows_of_shape (Z.to_nat d0) (Z.to_nat d1) (map Fin zs)) as R.
    rewrite length_map in R. specialize (R L).
    apply Forall_forall. intros row Hin. unfold len.
    rewrite (proj1 (Forall_forall _ _) R row Hin). lia.
Qed.

(** X15. The cell that shows one plot per element type builds, whatever
    state the generator is in: 100 points, each on the sine curve; a
    grid of 10 abscissas; three colour channels of shape [(10, 10)] with
    every value between 0 and 1; and 100 mesh vertices of three
    coordinates. *)
Theorem cell_30_arrays (st : rng) :
  exists d st',
    cell_30_data st = Ok (d, st')
    /\ len (pts d) = 100
    /\ Forall (fun p => snd p = fsin (fst p)) (pts d)
    /\ len (grid_x d) = 10
    /\ Forall (fun c => has_shape c 10 10 /\ Forall (Forall unit_interval) c)
         [red d; green d; blue d]
    /\ has_shape (tri_vertices d) 100 3.
Proof.
  destruct (for_each_forall (rng := rng)
              (fun p : pyfloat * pyfloat => snd p = fsin (fst p))
              (fun i : Z => a <- lift (py_truediv (IZR (10 * i)) 100) ;;
                            a' <- lift (py_truediv (IZR (10 * i)) 100) ;;
                            ret (a, fsin a'))
              (py_range 100)) with (st := seed_state 12)
    as (ps & s1 & E1 & L1 & F1).
  { intros i s. do 2 eexists. split; reflexivity. }
  destruct (np_linspace_ok 0 5 (Z.sqrt 100)) as (x & Ex & Lx & Fx);
    [apply Z.sqrt_nonneg|].
  destruct (np_random_randn_shape 100 3 s1) as (vs & s2 & E2 & Sv);
    [lia | lia |].
  destruct (np_zeros_ok 100) as (zs & Ez); [lia|].
  destruct (np_meshgrid_shape x x) as [Sxs Sys].
  destruct (np_meshgrid_finite x x Fx Fx) as [Fxs Fys].
  assert (Lx' : len x = 10).
  { unfold len. rewrite Lx. reflexivity. }
  rewrite Lx' in Sxs, Sys.
  unfold cell_30_data. rewrite bind_seed. cbv zeta.
  rewrite (bind_ok _ _ _ _ _ E1).
  rewrite (bind_ok _ _ _ _ _ (lift_ok _ _ s1 Ex)).
  destruct (np_meshgrid x x) as [xs ys]. simpl fst in *. simpl snd in *.
  rewrite (bind_ok _ _ _ _ _ E2).
  rewrite (bind_ok _ _ _ _ _ (lift_ok _ _ s2 Ez)).
  do 2 eexists. split; [reflexivity|]. simpl.
  split; [unfold len; rewrite L1, py_range_length; reflexivity|].
  split; [exact F1|]. split; [exact Lx'|]. split; [|exact Sv].
  repeat (apply Forall_cons;
          [split; [now apply channel_shape
                  | now apply channel_in_unit_interval_rows]|]).
  apply Forall_nil.
Qed.

End Gallery.

(* ================================================================= *)
(** * The statements above on the counter generator *)

Lemma random_walk_rejects_small_sizes_witness :
  random_walk (-3) 5 0%nat = Raise ValueError.
Proof. apply (random_walk_rejects_small_sizes (-3) 5 0%nat). left. lia. Defined.

Lemma random_walk_draw_count_witness :
  exists arr,
    random_walk 2 3 0%nat
    = Ok (arr, snd (gauss_draws (Z.to_nat (4 * 2 + 2 * 3 - 2)) 0%nat)).
Proof. apply (random_walk_draw_count 2 3 0%nat); lia. Defined.


Lemma points_sample_prefix_witness :
  exists p p' s s',
    points_sample 1000 (seed_state 1) = Ok (p, s)
    /\ points_sample 1000000 (seed_state 1) = Ok (p', s')
    /\ firstn (Z.to_nat 1000) p' = p.
Proof.
  apply (points_sample_prefix 1000 1000000 (seed_state (rng := nat) 1)). lia.
Defined.


Lemma one_le_pow10 (k : nat) : (1 <= 10 ^ k)%R.
Proof. apply pow_R1_Rle. lra. Qed.





Lemma channel_in_unit_interval_witness :
  Forall (Forall unit_interval)
    (channel 0.1 0.05 [[Fin 0; Fin 1]] [[Fin 2; Fin 3]]).
Proof.
  pose proof (one_le_pow10 100) as H.
  apply (channel_in_unit_interval 0.1 0.05 [[Fin 0; Fin 1]] [[Fin 2; Fin 3]]).
  - rewrite Rabs_pos_eq; lra.
  - rewrite Rabs_pos_eq; lra.
  - repeat constructor; simpl; rewrite Rabs_pos_eq; lra.
  - repeat constructor; simpl; rewrite Rabs_pos_eq; lra.
Defined.

(* ================================================================= *)
(** * Positive values, inside the range of a double *)











Section InRange.
Context {rng : Type} `{G : Generator rng}.


End InRange.


(* ================================================================= *)
(** * The cells and the file system *)

Section FileSystem.
Import Py Notebook Analysis.
Local Open Scope string_scope.



End FileSystem.
